(** * cndr_stats: recoding and derivation pipeline of [dataimport.py]

    A shallow embedding of [cndr_stats/dataimport.py].  A pandas DataFrame is
    a finite map from column names to columns (lists of cells) together with
    its number of rows; a cell is a missing value (NaN), a number, a text or
    a boolean.

    Numbers are exact rationals and the rounding of floating-point
    arithmetic is left out: the constants and thresholds of the module
    (0, 0.5, 1, 1.5, 2, 2.5, 3) and the values of the semi-quantitative and
    staging scales are dyadic, so they are represented exactly, and the cast
    to [float32] is the identity on them.

    Functions that assign into the frame they are given
    ([df['c'] = ...], [df.loc[mask, 'c'] = ...]) are written in a small
    state-and-exception monad whose state is that frame. *)

From Stdlib Require Import QArith Qcanon Qround Lqa.
From stdpp Require Import gmap strings list fin_maps.

Open Scope Qc_scope.
Open Scope string_scope.

(** ** Cells, columns, frames *)

Inductive cell : Type :=
  | NaN
  | Num (q : Qc)
  | Str (s : string)
  | Bool (b : bool).

#[global] Instance cell_eq_dec : EqDecision cell.
Proof. solve_decision. Defined.

Abbreviation Series := (list cell).

Record DataFrame : Type := mkDF {
  nrows : nat;
  columns : gmap string Series
}.

(** [c in df] *)
Definition has_column (c : string) (df : DataFrame) : bool :=
  bool_decide (is_Some (columns df !! c)).

Definition Qc_of_Z (z : Z) : Qc := Q2Qc (inject_Z z).

(** Literals of the source. *)
Definition q_half : Qc := Q2Qc (1 # 2).
Definition q_one_half : Qc := Q2Qc (3 # 2).
Definition q_two_half : Qc := Q2Qc (5 # 2).
Definition q_two : Qc := Qc_of_Z 2.
Definition q_three : Qc := Qc_of_Z 3.

(** Exceptions the modelled operations raise. *)
Inductive exc : Type :=
  | KeyError (absent : list string)
  | TypeError
  | ValueError.

#[global] Instance exc_eq_dec : EqDecision exc.
Proof. solve_decision. Defined.

(** ** [semiq_scores_to_numeric] *)

Definition measures : list string :=
  [ "Tau"; "ThioPlaques"; "AntibodyPlaques"; "aSyn"; "Ubiquitin";
    "Gliosis"; "NeuronLoss"; "TDP43"; "Other"; "Update" ].

Definition regions : list string :=
  [ "Amyg"; "DG"; "CS"; "EC"; "MF"; "Ang"; "SMT"; "Cing"; "OC";
    "Neocortical"; "CP"; "GP"; "TS"; "Subcortical"; "MB"; "SN";
    "Pons"; "LC"; "Med"; "CB"; "SC"; "Brainstem"; "MC"; "OFC" ].

(** [[x + y for x in regions for y in measures]] *)
Definition cols_semiq : list string :=
  x ← regions; y ← measures; [x +:+ y].

(** The conversion rules, in the order of the dict literal. *)
Definition repl_semiq : list (string * cell) :=
  [ ("Rare", Num q_half); ("2+", Num q_two); ("3+", Num q_three);
    ("1+", Num 1); ("0", Num 0); ("Presumed 0", Num 0);
    ("Not Avail", NaN); ("Not Done", NaN); ("Not Available", NaN) ].

(** Lookup in a dict literal with text keys. *)
Fixpoint dict_get {A} (d : list (string * A)) (k : string) : option A :=
  match d with
  | [] => None
  | (k', v) :: d' => if bool_decide (k' = k) then Some v else dict_get d' k
  end.

(** [Series.replace(d)] on one cell for a dict [d] whose keys are texts: a
    cell equal to a key becomes the key's value, any other cell is kept. *)
Definition replace_cell (d : list (string * cell)) (c : cell) : cell :=
  match c with
  | Str s => default c (dict_get d s)
  | _ => c
  end.

(** [DataFrame.replace({col: d, ...})]: column-wise dicts; a column of the
    frame without an entry, and an entry without a column, are passed over. *)
Definition replace_nested (spec : gmap string (list (string * cell)))
    (df : DataFrame) : DataFrame :=
  mkDF (nrows df)
       (map_imap (λ col s,
          Some (match spec !! col with
                | Some d => map (replace_cell d) s
                | None => s
                end)) (columns df)).

Definition semiq_scores_to_numeric (df : DataFrame) : DataFrame :=
  replace_nested (list_to_map ((λ x, (x, repl_semiq)) <$> cols_semiq)) df.

(** ** The monad of functions that assign into their frame *)

Definition M (A : Type) : Type := DataFrame → (exc + A) * DataFrame.

#[global] Instance M_ret : MRet M := λ A x df, (inr x, df).

#[global] Instance M_bind : MBind M := λ A B f m df,
  match m df with
  | (inr x, df') => f x df'
  | (inl e, df') => (inl e, df')
  end.

Definition get_frame : M DataFrame := λ df, (inr df, df).

(** A computation on values that may raise, run inside [M]. *)
Definition lift {A} (r : exc + A) : M A := λ df, (r, df).

(** [df[c]] and [df.c]: [KeyError] when the column is absent. *)
Definition getitem (c : string) : M Series := λ df,
  match columns df !! c with
  | Some s => (inr s, df)
  | None => (inl (KeyError [c]), df)
  end.

(** [df[[c1, ..., cn]]]: a [KeyError] naming the absent columns when there
    is one, or else the columns in the order asked for. *)
Definition getitems (cs : list string) : M (list Series) := λ df,
  match filter (λ c, columns df !! c = None) cs with
  | [] => (inr (omap (λ c, columns df !! c) cs), df)
  | absent => (inl (KeyError absent), df)
  end.

(** The frame once column [c] has been given the values [s]. *)
Definition assign (c : string) (s : Series) (df : DataFrame) : DataFrame :=
  mkDF (nrows df) (<[c := s]> (columns df)).

(** [df[c] = s] for a column [s]. *)
Definition setitem (c : string) (s : Series) : M unit := λ df,
  (inr (), assign c s df).

(** [df[c] = v] for a scalar [v], given to every row. *)
Definition setitem_scalar (c : string) (v : cell) : M unit := λ df,
  setitem c (replicate (nrows df) v) df.

(** Rows of [s] whose mask is [True] receive [v]; the others are kept. *)
Fixpoint mask_assign (mask : list bool) (v : cell) (s : Series) {struct s}
    : Series :=
  match s, mask with
  | [], _ => []
  | x :: s', [] => x :: s'
  | x :: s', m :: mask' => (if m then v else x) :: mask_assign mask' v s'
  end.

(** [df.loc[mask, c] = v]; a column that does not exist yet is created
    with missing values in the rows outside the mask. *)
Definition loc_setitem (mask : list bool) (c : string) (v : cell) : M unit :=
  λ df,
    setitem c (mask_assign mask v
                 (default (replicate (nrows df) NaN) (columns df !! c))) df.

(** Exception-propagating map over a list. *)
Fixpoint mapE {A B} (f : A → exc + B) (l : list A) : exc + list B :=
  match l with
  | [] => inr []
  | x :: l' =>
      match f x with
      | inl e => inl e
      | inr y =>
          match mapE f l' with
          | inl e => inl e
          | inr ys => inr (y :: ys)
          end
      end
  end.

(** ** Numeric arrays

    An entry of a floating-point array is a number or NaN ([None]). *)

Abbreviation float := (option Qc).

Definition cell_of_float (x : float) : cell :=
  match x with
  | Some q => Num q
  | None => NaN
  end.

Definition Qc_of_bool (b : bool) : Qc := if b then 1 else 0.

(** [np.ceil] *)
Definition Qc_ceil (q : Qc) : Qc := Qc_of_Z (Qceiling q).

(** [np.nanmean] of one row: the mean of the entries that are not NaN, and
    NaN for a row that has none. *)
Definition nanmean (row : list float) : float :=
  match omap id row with
  | [] => None
  | xs => Some (foldr Qcplus 0 xs / Qc_of_Z (Z.of_nat (length xs)))
  end.

(** [np.stack([a, b], axis=1)]: row [i] is [[a[i], b[i]]]. *)
Definition stack2 (a b : list float) : list (list float) :=
  zip_with (λ x y, [x; y]) a b.

Section Merge.

(** Python's [float(s)] on a text, which [astype('float32')] applies to the
    texts of a column: [None] where it raises [ValueError]. *)
Variable float_of_str : string → option float.

(** [astype('float32')] on one cell. *)
Definition cell_to_float (c : cell) : exc + float :=
  match c with
  | NaN => inr None
  | Num q => inr (Some q)
  | Bool b => inr (Some (Qc_of_bool b))
  | Str s =>
      match float_of_str s with
      | Some x => inr x
      | None => inl ValueError
      end
  end.

Definition astype_float32 (s : Series) : exc + list float :=
  mapE cell_to_float s.

(** ** [merge_braak_stages] *)

Definition unknown_to_nan : list (string * cell) := [("Unknown", NaN)].

Definition merge_braak_stages : M unit :=
  df ← get_frame;
  if has_column "Braak06" df && has_column "Braak03" df then
    b06 ← getitem "Braak06";
    c ← lift (astype_float32 (map (replace_cell unknown_to_nan) b06));
    b03 ← getitem "Braak03";
    f ← lift (astype_float32 (map (replace_cell unknown_to_nan) b03));
    setitem "BraakMrg"
      (cell_of_float <$>
         (nanmean <$>
            stack2 (fmap (M := option) (λ q, Qc_ceil (q * q_half)) <$> c) f))
  else mret ().

(** ** [clean_cndr_dataset]

    The body binds the recoded frame and the merged frame to the local name
    [df] and ends without a [return] statement: the call evaluates to
    [None].  [DataFrame.replace] builds a new frame, so the frame that
    [merge_braak_stages] assigns into is not the caller's. *)

Inductive pyvalue : Type :=
  | PyNone
  | PyFrame (df : DataFrame).

Definition clean_cndr_dataset (df : DataFrame) : exc + pyvalue :=
  let df1 := semiq_scores_to_numeric df in
  match merge_braak_stages df1 with
  | (inl e, _) => inl e
  | (inr _, df2) => inr PyNone
  end.

End Merge.

(** A reading of unsigned decimal integers, the form in which the staging
    scales are written; used to run the functions above on examples. *)
Definition digit_value (a : Ascii.ascii) : option Z :=
  let n := Z.of_N (Ascii.N_of_ascii a) in
  if bool_decide (48 ≤ n ≤ 57)%Z then Some (n - 48)%Z else None.

Fixpoint digits_value (acc : Z) (s : string) : option Z :=
  match s with
  | EmptyString => Some acc
  | String a s' =>
      d ← digit_value a; digits_value (10 * acc + d)%Z s'
  end.

Definition decimal_float_of_str (s : string) : option float :=
  match s with
  | EmptyString => None
  | _ => z ← digits_value 0 s; Some (Some (Qc_of_Z z))
  end.

(** ** Element-wise operations on columns *)

(** [cell == label] for a text [label]. *)
Definition cell_eq_str (label : string) (c : cell) : bool :=
  match c with
  | Str s => bool_decide (s = label)
  | _ => false
  end.

(** [frame == label] *)
Definition frame_eq_str (f : list Series) (label : string) : list (list bool) :=
  map (map (cell_eq_str label)) f.

(** Membership of a cell in a list of texts. *)
Definition cell_isin (labels : list string) (c : cell) : bool :=
  match c with
  | Str s => bool_decide (s ∈ labels)
  | _ => false
  end.

(** [Series.isin(labels)] and [DataFrame.isin(labels)] *)
Definition isin (s : Series) (labels : list string) : list bool :=
  map (cell_isin labels) s.

Definition frame_isin (f : list Series) (labels : list string)
    : list (list bool) :=
  map (λ s, isin s labels) f.

(** [frame.any(axis=1)] on a boolean frame of [n] rows. *)
Definition any_axis1 (n : nat) (f : list (list bool)) : list bool :=
  foldr (zip_with orb) (replicate n false) f.

(** [-s] on a boolean column: pandas inverts it. *)
Definition series_neg (s : list bool) : list bool := map negb s.

(** [a & b] on boolean columns. *)
Definition series_and (a b : list bool) : list bool := zip_with andb a b.

(** [Series.isnull()] *)
Definition cell_isnull (c : cell) : bool :=
  match c with
  | NaN => true
  | _ => false
  end.

Definition isnull (s : Series) : list bool := map cell_isnull s.

(** [cell > t] for a number [t]: false on a missing value, [TypeError] on a
    text; a boolean counts as 0 or 1. *)
Definition cell_gt (t : Qc) (c : cell) : exc + bool :=
  match c with
  | NaN => inr false
  | Num q => inr (bool_decide (t < q))
  | Bool b => inr (bool_decide (t < Qc_of_bool b))
  | Str _ => inl TypeError
  end.

Definition series_gt (s : Series) (t : Qc) : exc + list bool :=
  mapE (cell_gt t) s.

(** [a + b] on cells: a missing operand gives a missing value, two texts
    are concatenated, a text and a number raise [TypeError]. *)
Definition cell_add (a b : cell) : exc + cell :=
  match a, b with
  | NaN, _ | _, NaN => inr NaN
  | Str x, Str y => inr (Str (x +:+ y))
  | Str _, _ | _, Str _ => inl TypeError
  | Num x, Num y => inr (Num (x + y))
  | Num x, Bool y => inr (Num (x + Qc_of_bool y))
  | Bool x, Num y => inr (Num (Qc_of_bool x + y))
  | Bool x, Bool y => inr (Num (Qc_of_bool x + Qc_of_bool y))
  end.

Definition series_add (a b : Series) : exc + Series :=
  mapE (λ p, cell_add p.1 p.2) (zip a b).

(** [a / t] for a number [t]. *)
Definition cell_div (t : Qc) (a : cell) : exc + float :=
  match a with
  | NaN => inr None
  | Num x => inr (Some (x / t))
  | Bool x => inr (Some (Qc_of_bool x / t))
  | Str _ => inl TypeError
  end.

Definition series_div (a : Series) (t : Qc) : exc + list float :=
  mapE (cell_div t) a.

(** Truth value that [bool_column & float_column] gives a float operand:
    NaN counts as false, any other number is true unless it is zero. *)
Definition float_truth (x : float) : bool :=
  match x with
  | None => false
  | Some q => negb (bool_decide (q = 0))
  end.

(** [a & x] for a boolean column [a] and a float column [x]. *)
Definition series_and_float (a : list bool) (x : list float) : list bool :=
  zip_with andb a (map float_truth x).

(** [a > t] on a boolean column: [True] is 1 and [False] is 0. *)
Definition bools_gt (a : list bool) (t : Qc) : list bool :=
  map (λ b, bool_decide (t < Qc_of_bool b)) a.

(** [s.replace({True: 1, False: 0})] on a boolean column. *)
Definition replace_bool_int (s : list bool) : Series :=
  map (λ b, Num (Qc_of_bool b)) s.

(** ** [add_diagnostic_categories] *)

Definition npdx : list string := ["NPDx1"; "NPDx2"; "NPDx3"; "NPDx4"].

Definition ad_label : string := "Alzheimer's disease".

Definition late_label : string :=
  "Limbic-predominant Age-related TDP-43 Encephalopathy (Also known as LATE)".

Definition nadt_labels : list string :=
  [ "Argyrophilic grain disease";
    "Corticobasal degeneration";
    "Globular glial tauopathy";
    "Progressive supranuclear palsy";
    "Tauopathy unclassifiable";
    "Other" ].

Definition nadt_ftld_labels : list string :=
  [ "Amyotrophic lateral sclerosis";
    "Amyotrophic lateral sclerosis - Other";
    "Argyrophilic grain disease";
    "Chronic Traumatic Encephalopathy";
    "Corticobasal degeneration";
    "Frontotemporal dementia with parkinsonism linked to chromosome 17";
    "Frontotemporal lobar degeneration with TDP inclusions (Also known as FTLD-TDP)";
    "Globular glial tauopathy";
    "Multiple system atrophy";
    "Pick's disease";
    "Progressive supranuclear palsy";
    "Tauopathy unclassifiable";
    "Other" ].

(** Lines 123-131: low, intermediate or high ADNC. *)
Definition adnc_block : M unit :=
  df ← get_frame;
  if has_column "ABeta" df && has_column "BraakMrg" df
     && has_column "CERAD" df then
    setitem_scalar "ADNC_severity" (Num 0);;
    a ← getitem "ABeta";
    loc_setitem (isnull a) "ADNC_severity" NaN;;
    b ← getitem "BraakMrg";
    loc_setitem (isnull b) "ADNC_severity" NaN;;
    c ← getitem "CERAD";
    loc_setitem (isnull c) "ADNC_severity" NaN;;
    a ← getitem "ABeta";
    a1 ← lift (series_gt a q_half);
    loc_setitem a1 "ADNC_severity" (Num 1);;
    b ← getitem "BraakMrg";
    b2 ← lift (series_gt b q_one_half);
    a ← getitem "ABeta";
    a2 ← lift (series_gt a q_one_half);
    loc_setitem (series_and b2 a2) "ADNC_severity" (Num q_two);;
    b ← getitem "BraakMrg";
    b3 ← lift (series_gt b q_one_half);
    a ← getitem "ABeta";
    a3 ← lift (series_gt a q_half);
    c ← getitem "CERAD";
    c3 ← lift (series_gt c q_one_half);
    loc_setitem (series_and (series_and b3 a3) c3) "ADNC_severity" (Num q_two);;
    b ← getitem "BraakMrg";
    b4 ← lift (series_gt b q_two_half);
    a ← getitem "ABeta";
    a4 ← lift (series_gt a q_two_half);
    c ← getitem "CERAD";
    c4 ← lift (series_gt c q_one_half);
    loc_setitem (series_and (series_and b4 a4) c4) "ADNC_severity" (Num q_three)
  else mret ().

(** Lines 138-142: LATE stage.  In [is_any_diag_late & mtl_tdp > 0] the
    operator [&] binds tighter than [>]: the mask is
    [(is_any_diag_late & mtl_tdp) > 0]. *)
Definition late_block (is_any_diag_late : list bool) : M unit :=
  df ← get_frame;
  if has_column "CSTDP43" df && has_column "DGTDP43" df
     && has_column "ECTDP43" df then
    cs ← getitem "CSTDP43";
    dg ← getitem "DGTDP43";
    s1 ← lift (series_add cs dg);
    ec ← getitem "ECTDP43";
    s2 ← lift (series_add s1 ec);
    mtl_tdp ← lift (series_div s2 q_three);
    setitem_scalar "LATE_stage" (Num 0);;
    loc_setitem is_any_diag_late "LATE_stage" (Num 1);;
    loc_setitem (bools_gt (series_and_float is_any_diag_late mtl_tdp) 0)
      "LATE_stage" (Num q_two)
  else mret ().

Definition is_first_diag_nadt (npdx1 : Series) : list bool :=
  isin npdx1 nadt_labels.

Definition add_diagnostic_categories : M unit :=
  df ← get_frame;
  let n := nrows df in
  f ← getitems npdx;
  let is_any_diag_ad := any_axis1 n (frame_eq_str f ad_label) in
  x1 ← getitem "NPDx1";
  let is_first_diag_nadt := is_first_diag_nadt x1 in
  f ← getitems npdx;
  let is_any_diag_nadt_ftld := any_axis1 n (frame_isin f nadt_ftld_labels) in
  f ← getitems npdx;
  let is_any_diag_late := any_axis1 n (frame_eq_str f late_label) in
  let is_robin_eligible :=
    series_and is_any_diag_ad (series_neg is_first_diag_nadt) in
  let is_ad := series_and is_any_diag_ad (series_neg is_any_diag_nadt_ftld) in
  let is_ad_cont := series_neg is_any_diag_nadt_ftld in
  adnc_block;;
  let is_late_ad := series_and is_ad is_any_diag_late in
  let is_late_ad_cont := series_and is_ad_cont is_any_diag_late in
  late_block is_any_diag_late;;
  setitem "is_any_diag_ad" (replace_bool_int is_any_diag_ad);;
  setitem "is_any_diag_nadt_ftld" (replace_bool_int is_any_diag_nadt_ftld);;
  setitem "is_any_diag_late" (replace_bool_int is_any_diag_late);;
  setitem "is_robin_eligible" (replace_bool_int is_robin_eligible);;
  setitem "is_clean_ad" (replace_bool_int is_ad);;
  setitem "is_clean_ad_cont" (replace_bool_int is_ad_cont);;
  setitem "is_clean_late_ad" (Bool <$> is_late_ad);;
  setitem "is_clean_late_ad_cont" (Bool <$> is_late_ad_cont).

(** ** Record-level readings

    What the blocks above leave in one row, written for one record.  The
    lemmas [adnc_block_spec] and [late_block_spec] relate them to the
    column-level code. *)

Definition cell_gtb (t : Qc) (c : cell) : bool :=
  match cell_gt t c with
  | inr b => b
  | inl _ => false
  end.

Definition adnc_cell (a b c : cell) : cell :=
  let v := Num 0 in
  let v := if cell_isnull a then NaN else v in
  let v := if cell_isnull b then NaN else v in
  let v := if cell_isnull c then NaN else v in
  let v := if cell_gtb q_half a then Num 1 else v in
  let v := if cell_gtb q_one_half b && cell_gtb q_one_half a
           then Num q_two else v in
  let v := if cell_gtb q_one_half b && cell_gtb q_half a
              && cell_gtb q_one_half c
           then Num q_two else v in
  let v := if cell_gtb q_two_half b && cell_gtb q_two_half a
              && cell_gtb q_one_half c
           then Num q_three else v in
  v.

(** The number a cell stands for in arithmetic, when it is not missing and
    not a text. *)
Definition cell_number (c : cell) : option Qc :=
  match c with
  | Num q => Some q
  | Bool b => Some (Qc_of_bool b)
  | _ => None
  end.

(** [(cs + dg + ec) / 3.0] for one record. *)
Definition mtl_tdp_cell (cs dg ec : cell) : exc + float :=
  match cell_add cs dg with
  | inl e => inl e
  | inr s1 =>
      match cell_add s1 ec with
      | inl e => inl e
      | inr s2 => cell_div q_three s2
      end
  end.

Definition late_stage_cell (late : bool) (mtl_tdp : float) : cell :=
  let v := Num 0 in
  let v := if late then Num 1 else v in
  let v := if bool_decide (0 < Qc_of_bool (late && float_truth mtl_tdp))
           then Num q_two else v in
  v.

(** The four diagnosis slots of record [i]. *)
Definition slots_at (df : DataFrame) (i : nat) : option (list cell) :=
  c1 ← columns df !! "NPDx1" ≫= (.!! i);
  c2 ← columns df !! "NPDx2" ≫= (.!! i);
  c3 ← columns df !! "NPDx3" ≫= (.!! i);
  c4 ← columns df !! "NPDx4" ≫= (.!! i);
  Some [c1; c2; c3; c4].

(** ** Example frames *)

Definition frame_of (n : nat) (cols : list (string * Series)) : DataFrame :=
  mkDF n (list_to_map cols).

(** Three records: AD with a competing diagnosis, LATE alone, LATE with AD. *)
Definition cohort : DataFrame :=
  frame_of 3
    [ ("NPDx1", [Str ad_label; Str late_label; Str late_label]);
      ("NPDx2", [Str "Other"; NaN; NaN]);
      ("NPDx3", [NaN; NaN; NaN]);
      ("NPDx4", [NaN; NaN; Str ad_label]);
      ("ABeta", [Num q_three; NaN; Num 1]);
      ("BraakMrg", [Num q_three; Num 1; Num 1]);
      ("CERAD", [Num q_two; Num 1; Num 1]);
      ("CSTDP43", [Num 0; Num 1; NaN]);
      ("DGTDP43", [Num 0; Num q_half; Num 1]);
      ("ECTDP43", [Num 0; Num 0; Num 1]) ].

(** One record with a LATE diagnosis whose three regional scores are -1. *)
Definition late_negative_scores : DataFrame :=
  frame_of 1
    [ ("NPDx1", [Str late_label]); ("NPDx2", [NaN]);
      ("NPDx3", [NaN]); ("NPDx4", [NaN]);
      ("CSTDP43", [Num (-1)]); ("DGTDP43", [Num (-1)]);
      ("ECTDP43", [Num (-1)]) ].

(** One record whose merged Braak stage is missing and whose amyloid score
    is 1. *)
Definition braak_missing : DataFrame :=
  frame_of 1
    [ ("NPDx1", [Str ad_label]); ("NPDx2", [NaN]);
      ("NPDx3", [NaN]); ("NPDx4", [NaN]);
      ("ABeta", [Num 1]); ("BraakMrg", [NaN]); ("CERAD", [Num 1]) ].

(** One record staged 4 on the coarse scale and not staged on the fine one. *)
Definition coarse_only : DataFrame :=
  frame_of 1 [ ("Braak06", [Num (Qc_of_Z 4)]); ("Braak03", [NaN]) ].

(** Four records whose stages are written as texts. *)
Definition staged_texts : DataFrame :=
  frame_of 4
    [ ("Braak06", [Str "4"; Str "Unknown"; Str "5"; NaN]);
      ("Braak03", [NaN; Num 1; Str "3"; Str "Unknown"]) ].

(** Two records, the first staged with a Roman numeral. *)
Definition staged_roman : DataFrame :=
  frame_of 2
    [ ("Braak06", [Str "IV"; Num q_two]); ("Braak03", [Num 1; NaN]) ].

(** One record whose amyloid score is a text. *)
Definition abeta_text : DataFrame :=
  frame_of 1
    [ ("NPDx1", [Str ad_label]); ("NPDx2", [NaN]);
      ("NPDx3", [NaN]); ("NPDx4", [NaN]);
      ("ABeta", [Str "Borderline"]); ("BraakMrg", [Num 1]);
      ("CERAD", [Num 1]) ].

(** * Properties *)

(** ** The field recoder *)

Lemma replace_cell_not_key d c :
  (∀ k, c = Str k → dict_get d k = None) → replace_cell d c = c.
Proof.
  destruct c as [| |s|]; simpl; try done.
  intros H. by rewrite (H s eq_refl).
Qed.

Lemma dict_get_None {A} (d : list (string * A)) k :
  k ∉ d.*1 → dict_get d k = None.
Proof.
  induction d as [|[k' v] d IH]; simpl; [done|].
  intros Hk. case_bool_decide as Heq.
  - subst. exfalso. apply Hk. left.
  - apply IH. intros Hin. apply Hk. by right.
Qed.

Lemma replace_nested_lookup spec df col :
  columns (replace_nested spec df) !! col =
    (λ s, match spec !! col with
          | Some d => map (replace_cell d) s
          | None => s
          end) <$> columns df !! col.
Proof.
  unfold replace_nested; simpl. rewrite map_lookup_imap.
  by destruct (columns df !! col).
Qed.

Lemma const_dict_lookup {A} (cols : list string) (d : A) col :
  col ∈ cols →
  (list_to_map ((λ x, (x, d)) <$> cols) : gmap string A) !! col = Some d.
Proof.
  intros Hcol.
  destruct (list_to_map _ !! col) as [d'|] eqn:Hd.
  - apply elem_of_list_to_map_2 in Hd.
    apply list_elem_of_fmap in Hd as (x & Hx & _). by inversion Hx.
  - apply not_elem_of_list_to_map_2 in Hd. exfalso. apply Hd.
    rewrite <- list_fmap_compose.
    apply list_elem_of_fmap. by exists col.
Qed.

(** C6: every region x measure column that exists is recoded cell by cell
    with the fixed table, a cell that is not a key of the table is kept,
    and an absent column stays absent. *)
Theorem semiq_scores_to_numeric_recodes (df : DataFrame) (col : string) :
  col ∈ cols_semiq →
  nrows (semiq_scores_to_numeric df) = nrows df
  ∧ columns (semiq_scores_to_numeric df) !! col
      = map (replace_cell repl_semiq) <$> columns df !! col
  ∧ replace_cell repl_semiq (Str "Rare") = Num q_half
  ∧ replace_cell repl_semiq (Str "0") = Num 0
  ∧ replace_cell repl_semiq (Str "Presumed 0") = Num 0
  ∧ replace_cell repl_semiq (Str "1+") = Num 1
  ∧ replace_cell repl_semiq (Str "2+") = Num q_two
  ∧ replace_cell repl_semiq (Str "3+") = Num q_three
  ∧ replace_cell repl_semiq (Str "Not Avail") = NaN
  ∧ replace_cell repl_semiq (Str "Not Done") = NaN
  ∧ replace_cell repl_semiq (Str "Not Available") = NaN
  ∧ (∀ c : cell,
       (∀ k, k ∈ ["Rare"; "0"; "Presumed 0"; "1+"; "2+"; "3+";
                  "Not Avail"; "Not Done"; "Not Available"] → c ≠ Str k) →
       replace_cell repl_semiq c = c)
  ∧ replace_cell repl_semiq (Str "Borderline") = Str "Borderline".
Proof.
  intros Hcol. split; [done|]. split.
  { unfold semiq_scores_to_numeric. rewrite replace_nested_lookup.
    by rewrite const_dict_lookup. }
  repeat split; try reflexivity.
  intros c Hc. apply replace_cell_not_key. intros k ->.
  apply dict_get_None. simpl. intros Hk. apply (Hc k); [|done].
  rewrite !elem_of_cons, elem_of_nil in Hk.
  rewrite !elem_of_cons, elem_of_nil. tauto.
Qed.

Lemma semiq_scores_to_numeric_recodes_witness :
  columns (semiq_scores_to_numeric
             (mkDF 2 {["CSTDP43" := [Str "Rare"; Str "Borderline"]]}))
    !! "CSTDP43"
  = Some [Num q_half; Str "Borderline"].
Proof.
  pose proof (semiq_scores_to_numeric_recodes
    (mkDF 2 {["CSTDP43" := [Str "Rare"; Str "Borderline"]]}) "CSTDP43") as H.
  destruct H as (_ & H & _).
  - vm_compute. repeat constructor.
  - rewrite H. reflexivity.
Defined.

(** ** The cleaning pipeline *)

(** C4: the pipeline never evaluates to a table, whatever the input: a call
    either raises or evaluates to [None]. *)
Theorem clean_cndr_dataset_returns_None
    (float_of_str : string → option float) (df : DataFrame) :
  (∀ t, clean_cndr_dataset float_of_str df ≠ inr (PyFrame t))
  ∧ (clean_cndr_dataset float_of_str df = inr PyNone
     ∨ ∃ e, clean_cndr_dataset float_of_str df = inl e).
Proof.
  unfold clean_cndr_dataset.
  destruct (merge_braak_stages _ _) as [[e|[]] df2]; split;
    try congruence; eauto.
Qed.

(** ** Required diagnosis columns *)

Lemma getitems_absent cs df c :
  c ∈ cs → columns df !! c = None →
  ∃ absent,
    getitems cs df = (inl (KeyError absent), df)
    ∧ absent = filter (λ c, columns df !! c = None) cs
    ∧ c ∈ absent.
Proof.
  intros Hc Hnone. unfold getitems.
  assert (c ∈ filter (λ c, columns df !! c = None) cs) as Hin
    by (by apply list_elem_of_filter).
  destruct (filter _ cs) as [|c' l] eqn:Hf.
  - by apply elem_of_nil in Hin.
  - eauto.
Qed.

(** C8: when one of the four diagnosis columns is absent the call raises a
    [KeyError] that names exactly the absent diagnosis columns, and the
    frame is left as it was: no flag column has been written. *)
Theorem add_diagnostic_categories_missing_npdx (df : DataFrame) (c : string) :
  c ∈ npdx → columns df !! c = None →
  ∃ absent,
    add_diagnostic_categories df = (inl (KeyError absent), df)
    ∧ c ∈ absent
    ∧ ∀ c', c' ∈ absent ↔ c' ∈ npdx ∧ columns df !! c' = None.
Proof.
  intros Hc Hnone.
  destruct (getitems_absent npdx df c Hc Hnone) as (absent & Hg & Ha & Hin).
  exists absent. split; [|split; [done|]].
  - unfold add_diagnostic_categories, mbind, M_bind, get_frame.
    by rewrite Hg.
  - intros c'. rewrite Ha, list_elem_of_filter. tauto.
Qed.

Lemma add_diagnostic_categories_missing_npdx_witness :
  ∃ absent,
    add_diagnostic_categories (mkDF 1 {["NPDx1" := [NaN]]})
      = (inl (KeyError absent), mkDF 1 {["NPDx1" := [NaN]]})
    ∧ "NPDx3" ∈ absent.
Proof.
  destruct (add_diagnostic_categories_missing_npdx
              (mkDF 1 {["NPDx1" := [NaN]]}) "NPDx3") as (absent & H1 & H2 & _).
  - unfold npdx. rewrite !elem_of_cons. tauto.
  - reflexivity.
  - exists absent. by split.
Defined.

(** ** Lists, masks and exception-propagating maps *)

Lemma lookup_mask_assign mask v s i :
  mask_assign mask v s !! i
  = (λ x, if default false (mask !! i) then v else x) <$> s !! i.
Proof.
  revert mask i. induction s as [|x s IH]; intros mask i; [done|].
  destruct mask as [|m mask]; simpl.
  - by destruct ((x :: s) !! i).
  - destruct i as [|i]; simpl; [done|]. apply IH.
Qed.

Lemma length_mask_assign mask v s :
  length (mask_assign mask v s) = length s.
Proof.
  revert mask. induction s as [|x s IH]; intros [|m mask]; simpl; auto.
Qed.

Lemma Forall_mask_assign (P : cell → Prop) mask v s :
  P v → Forall P s → Forall P (mask_assign mask v s).
Proof.
  intros Hv Hs. revert mask.
  induction Hs as [|x s Hx Hs IH]; intros [|[] mask]; simpl;
    repeat constructor; auto.
Qed.

Lemma mapE_Forall2 {A B} (f : A → exc + B) l m :
  mapE f l = inr m → Forall2 (λ x y, f x = inr y) l m.
Proof.
  revert m. induction l as [|x l IH]; intros m; simpl.
  - intros [= <-]. constructor.
  - destruct (f x) as [e|y] eqn:Hx; [done|].
    destruct (mapE f l) as [e|ys]; [done|].
    intros [= <-]. constructor; auto.
Qed.

Lemma mapE_lookup {A B} (f : A → exc + B) l m i x :
  mapE f l = inr m → l !! i = Some x → ∃ y, m !! i = Some y ∧ f x = inr y.
Proof.
  intros Hm Hx. apply mapE_Forall2 in Hm.
  by apply (Forall2_lookup_l _ _ _ _ _ Hm Hx).
Qed.

Lemma series_gt_lookup s t m i c :
  series_gt s t = inr m → s !! i = Some c → m !! i = Some (cell_gtb t c).
Proof.
  intros Hm Hc. destruct (mapE_lookup _ _ _ _ _ Hm Hc) as (y & Hy & Hf).
  unfold cell_gtb. by rewrite Hf.
Qed.

(** ** The internal flag of the primary diagnosis *)

Lemma is_first_diag_nadt_lookup (x1 : Series) (labels : list string) i :
  isin x1 labels !! i = Some true
  ↔ ∃ s, x1 !! i = Some (Str s) ∧ s ∈ labels.
Proof.
  unfold isin. rewrite list_lookup_fmap. split.
  - destruct (x1 !! i) as [[| |s|]|]; simpl; try done.
    intros [= H]. apply bool_decide_eq_true in H. eauto.
  - intros (s & -> & Hs). simpl. by rewrite bool_decide_eq_true_2.
Qed.

(** C3, as amended: the flag of the primary diagnosis is true for a record
    iff slot 1 holds one of six labels. *)
Theorem is_first_diag_nadt_six_labels (x1 : Series) (i : nat) :
  (is_first_diag_nadt x1 !! i = Some true
   ↔ ∃ s, x1 !! i = Some (Str s)
          ∧ s ∈ [ "Argyrophilic grain disease"; "Corticobasal degeneration";
                  "Globular glial tauopathy";
                  "Progressive supranuclear palsy";
                  "Tauopathy unclassifiable"; "Other" ])
  ∧ NoDup nadt_labels
  ∧ length nadt_labels = 6%nat.
Proof.
  split; [apply is_first_diag_nadt_lookup|]. split; [|done].
  apply (bool_decide_unpack (NoDup nadt_labels)). by vm_compute.
Qed.

(** C3, as stated, fails: no set of eight distinct labels describes the
    flag. *)
Lemma is_first_diag_nadt_not_eight_labels :
  ¬ ∃ labels : list string,
      NoDup labels ∧ length labels = 8%nat
      ∧ ∀ (x1 : Series) (i : nat),
          is_first_diag_nadt x1 !! i = Some true
          ↔ ∃ s, x1 !! i = Some (Str s) ∧ s ∈ labels.
Proof.
  intros (labels & Hnd & Hlen & H).
  assert (labels ⊆+ nadt_labels) as Hsub.
  { apply NoDup_submseteq; [done|]. intros s Hs.
    assert (is_first_diag_nadt [Str s] !! 0%nat = Some true) as Hf
      by (apply H; eauto).
    apply is_first_diag_nadt_lookup in Hf as (s' & Heq & Hs').
    simpl in Heq. by simplify_eq. }
  apply submseteq_length in Hsub. rewrite Hlen in Hsub. simpl in Hsub. lia.
Qed.

(** ** Steps of the monad *)

Lemma has_column_true c df s : columns df !! c = Some s → has_column c df = true.
Proof. intros H. unfold has_column. apply bool_decide_eq_true_2. eauto. Qed.

Lemma has_column_false c df : columns df !! c = None → has_column c df = false.
Proof.
  intros H. unfold has_column. apply bool_decide_eq_false_2.
  rewrite H. by intros [? ?].
Qed.

Lemma columns_assign_eq c s df : columns (assign c s df) !! c = Some s.
Proof. apply lookup_insert_eq. Qed.

Lemma columns_assign_ne c c' s df :
  c ≠ c' → columns (assign c s df) !! c' = columns df !! c'.
Proof. intros H. unfold assign; simpl. by rewrite lookup_insert_ne. Qed.

Lemma assign_assign c s1 s2 df : assign c s2 (assign c s1 df) = assign c s2 df.
Proof. unfold assign; simpl. by rewrite insert_insert_eq. Qed.

Lemma getitem_Some c df s : columns df !! c = Some s → getitem c df = (inr s, df).
Proof. intros H. unfold getitem. by rewrite H. Qed.

Lemma getitem_assign_ne c c' x df :
  columns df !! c' = Some x → c ≠ c' →
  ∀ s, getitem c' (assign c s df) = (inr x, assign c s df).
Proof.
  intros Hx Hne s. apply getitem_Some. by rewrite columns_assign_ne.
Qed.

Lemma setitem_scalar_assign c v df :
  setitem_scalar c v df = (inr (), assign c (replicate (nrows df) v) df).
Proof. done. Qed.

Lemma loc_setitem_assign mask c v s df :
  loc_setitem mask c v (assign c s df)
  = (inr (), assign c (mask_assign mask v s) df).
Proof.
  unfold loc_setitem, setitem. rewrite columns_assign_eq; simpl.
  by rewrite assign_assign.
Qed.

(** A comparison of a column either raises, which ends the run, or gives
    a mask. *)
Ltac case_series_gt :=
  match goal with
  | |- context [series_gt ?s ?t] =>
      let e := fresh "e" in
      let m := fresh "m" in
      let Hm := fresh "Hm" in
      let H := fresh "H" in
      destruct (series_gt s t) as [e|m] eqn:Hm; cbv beta iota;
      [intros H; discriminate H|]
  end.

Lemma adnc_block_spec df df' a b c :
  columns df !! "ABeta" = Some a →
  columns df !! "BraakMrg" = Some b →
  columns df !! "CERAD" = Some c →
  adnc_block df = (inr (), df') →
  ∃ sev,
    df' = assign "ADNC_severity" sev df
    ∧ length sev = nrows df
    ∧ Forall (λ v, v ∈ [NaN; Num 0; Num 1; Num q_two; Num q_three]) sev
    ∧ ∀ i ca cb cc,
        (i < nrows df)%nat →
        a !! i = Some ca → b !! i = Some cb → c !! i = Some cc →
        sev !! i = Some (adnc_cell ca cb cc).
Proof.
  intros Ha Hb Hc. unfold adnc_block.
  unfold mbind, M_bind, get_frame, lift.
  rewrite (has_column_true _ _ _ Ha), (has_column_true _ _ _ Hb),
    (has_column_true _ _ _ Hc).
  cbn [andb].
  rewrite setitem_scalar_assign.
  pose proof (getitem_assign_ne "ADNC_severity" _ _ df Ha ltac:(done)) as Ga.
  pose proof (getitem_assign_ne "ADNC_severity" _ _ df Hb ltac:(done)) as Gb.
  pose proof (getitem_assign_ne "ADNC_severity" _ _ df Hc ltac:(done)) as Gc.
  repeat (rewrite ?loc_setitem_assign; rewrite ?Ga, ?Gb, ?Gc;
          try case_series_gt).
  simplify_eq. intros [= <-]. eexists. split; [reflexivity|]. split.
  { by rewrite !length_mask_assign, length_replicate. }
  split.
  { repeat (apply Forall_mask_assign;
            [rewrite !elem_of_cons; tauto|]).
    apply Forall_replicate. rewrite !elem_of_cons; tauto. }
  intros i ca cb cc Hi Hai Hbi Hci.
  rewrite !lookup_mask_assign, lookup_replicate_2 by done.
  unfold series_and, isnull. rewrite !lookup_zip_with, !list_lookup_fmap.
  repeat match goal with
    | H : series_gt a _ = inr _ |- _ =>
        rewrite (series_gt_lookup _ _ _ _ _ H Hai); clear H
    | H : series_gt b _ = inr _ |- _ =>
        rewrite (series_gt_lookup _ _ _ _ _ H Hbi); clear H
    | H : series_gt c _ = inr _ |- _ =>
        rewrite (series_gt_lookup _ _ _ _ _ H Hci); clear H
    end.
  rewrite Hai, Hbi, Hci. reflexivity.
Qed.

Lemma adnc_block_absent df :
  columns df !! "ABeta" = None ∨ columns df !! "BraakMrg" = None
  ∨ columns df !! "CERAD" = None →
  adnc_block df = (inr (), df).
Proof.
  intros H. unfold adnc_block, mbind, M_bind, get_frame.
  destruct H as [H|[H|H]]; rewrite (has_column_false _ _ H);
    rewrite ?andb_false_r; reflexivity.
Qed.

(** A successful run of the block changes at most the severity column. *)
Lemma adnc_block_frame df df' :
  adnc_block df = (inr (), df') →
  df' = df ∨ ∃ sev, df' = assign "ADNC_severity" sev df.
Proof.
  intros H.
  destruct (columns df !! "ABeta") as [a|] eqn:Ha;
    [|rewrite adnc_block_absent in H by auto; left; congruence].
  destruct (columns df !! "BraakMrg") as [b|] eqn:Hb;
    [|rewrite adnc_block_absent in H by auto; left; congruence].
  destruct (columns df !! "CERAD") as [c|] eqn:Hc;
    [|rewrite adnc_block_absent in H by auto; left; congruence].
  destruct (adnc_block_spec _ _ _ _ _ Ha Hb Hc H) as (sev & -> & _).
  right. eauto.
Qed.

Lemma series_add_lookup a b s i ca cb :
  series_add a b = inr s → a !! i = Some ca → b !! i = Some cb →
  ∃ y, s !! i = Some y ∧ cell_add ca cb = inr y.
Proof.
  intros Hs Ha Hb. unfold series_add in Hs.
  apply (mapE_lookup _ _ _ i (ca, cb)) in Hs.
  - done.
  - rewrite lookup_zip_with. rewrite Ha. simpl. rewrite  Hb. done.
Qed.

Lemma late_block_spec late df df' cs dg ec :
  columns df !! "CSTDP43" = Some cs →
  columns df !! "DGTDP43" = Some dg →
  columns df !! "ECTDP43" = Some ec →
  late_block late df = (inr (), df') →
  ∃ stage,
    df' = assign "LATE_stage" stage df
    ∧ length stage = nrows df
    ∧ Forall (λ v, v ∈ [Num 0; Num 1; Num q_two]) stage
    ∧ ∀ i l c1 c2 c3,
        (i < nrows df)%nat → late !! i = Some l →
        cs !! i = Some c1 → dg !! i = Some c2 → ec !! i = Some c3 →
        ∃ avg, mtl_tdp_cell c1 c2 c3 = inr avg
               ∧ stage !! i = Some (late_stage_cell l avg).
Proof.
  intros Hcs Hdg Hec. unfold late_block.
  unfold mbind, M_bind, get_frame, lift.
  rewrite (has_column_true _ _ _ Hcs), (has_column_true _ _ _ Hdg),
    (has_column_true _ _ _ Hec).
  cbn [andb].
  rewrite (getitem_Some _ _ _ Hcs), (getitem_Some _ _ _ Hdg).
  destruct (series_add cs dg) as [e|s1] eqn:Hs1; [intros H; discriminate H|].
  rewrite (getitem_Some _ _ _ Hec).
  destruct (series_add s1 ec) as [e|s2] eqn:Hs2; [intros H; discriminate H|].
  destruct (series_div s2 q_three) as [e|mtl] eqn:Hmtl;
    [intros H; discriminate H|].
  rewrite setitem_scalar_assign, !loc_setitem_assign.
  intros [= <-]. eexists. split; [reflexivity|]. split.
  { by rewrite !length_mask_assign, length_replicate. }
  split.
  { repeat (apply Forall_mask_assign; [rewrite !elem_of_cons; tauto|]).
    apply Forall_replicate. rewrite !elem_of_cons; tauto. }
  intros i l c1 c2 c3 Hi Hl H1 H2 H3.
  destruct (series_add_lookup _ _ _ _ _ _ Hs1 H1 H2) as (y1 & Hy1 & Hadd1).
  destruct (series_add_lookup _ _ _ _ _ _ Hs2 Hy1 H3) as (y2 & Hy2 & Hadd2).
  destruct (mapE_lookup _ _ _ _ _ Hmtl Hy2) as (avg & Havg & Hdiv).
  exists avg. split.
  { unfold mtl_tdp_cell. by rewrite Hadd1, Hadd2. }
  rewrite !lookup_mask_assign, lookup_replicate_2 by done.
  unfold bools_gt, series_and_float.
  rewrite list_lookup_fmap, lookup_zip_with, list_lookup_fmap, Hl, Havg.
  reflexivity.
Qed.

Lemma late_block_absent late df :
  columns df !! "CSTDP43" = None ∨ columns df !! "DGTDP43" = None
  ∨ columns df !! "ECTDP43" = None →
  late_block late df = (inr (), df).
Proof.
  intros H. unfold late_block, mbind, M_bind, get_frame.
  destruct H as [H|[H|H]]; rewrite (has_column_false _ _ H);
    rewrite ?andb_false_r; reflexivity.
Qed.

Lemma late_block_frame late df df' :
  late_block late df = (inr (), df') →
  df' = df ∨ ∃ stage, df' = assign "LATE_stage" stage df.
Proof.
  intros H.
  destruct (columns df !! "CSTDP43") as [a|] eqn:Ha;
    [|rewrite late_block_absent in H by auto; left; congruence].
  destruct (columns df !! "DGTDP43") as [b|] eqn:Hb;
    [|rewrite late_block_absent in H by auto; left; congruence].
  destruct (columns df !! "ECTDP43") as [c|] eqn:Hc;
    [|rewrite late_block_absent in H by auto; left; congruence].
  destruct (late_block_spec _ _ _ _ _ _ Ha Hb Hc H) as (stage & -> & _).
  right. eauto.
Qed.

(** ** The diagnosis slots *)

Lemma getitems_npdx_inv df f df' :
  getitems npdx df = (inr f, df') →
  ∃ x1 x2 x3 x4,
    columns df !! "NPDx1" = Some x1 ∧ columns df !! "NPDx2" = Some x2
    ∧ columns df !! "NPDx3" = Some x3 ∧ columns df !! "NPDx4" = Some x4
    ∧ f = [x1; x2; x3; x4] ∧ df' = df.
Proof.
  unfold getitems.
  destruct (filter _ npdx) as [|c l] eqn:Hf; [|intros H; discriminate H].
  intros [= <- <-].
  assert (∀ c, c ∈ npdx → is_Some (columns df !! c)) as Hall.
  { intros c Hc. destruct (columns df !! c) eqn:Hl; [eauto|].
    by destruct (filter_nil_not_elem_of _ _ c Hf Hl). }
  destruct (Hall "NPDx1") as [x1 H1]; [unfold npdx; set_solver|].
  destruct (Hall "NPDx2") as [x2 H2]; [unfold npdx; set_solver|].
  destruct (Hall "NPDx3") as [x3 H3]; [unfold npdx; set_solver|].
  destruct (Hall "NPDx4") as [x4 H4]; [unfold npdx; set_solver|].
  exists x1, x2, x3, x4. simpl. by rewrite H1, H2, H3, H4.
Qed.

Lemma any_axis1_lookup (p : cell → bool) n x1 x2 x3 x4 i c1 c2 c3 c4 :
  (i < n)%nat →
  x1 !! i = Some c1 → x2 !! i = Some c2 →
  x3 !! i = Some c3 → x4 !! i = Some c4 →
  any_axis1 n (map (map p) [x1; x2; x3; x4]) !! i
  = Some (p c1 || p c2 || p c3 || p c4).
Proof.
  intros Hi H1 H2 H3 H4. unfold any_axis1. simpl.
  rewrite !lookup_zip_with, !list_lookup_fmap, H1, H2, H3, H4.
  rewrite lookup_replicate_2 by done. simpl.
  by rewrite orb_false_r, !orb_assoc.
Qed.

(** A true entry of [any(axis=1)] over at least one column comes with an
    entry of the first column. *)
Lemma any_axis1_lookup_false n m ms i :
  any_axis1 n (m :: ms) !! i = Some false → m !! i = Some false.
Proof.
  unfold any_axis1. simpl. rewrite lookup_zip_with.
  destruct (m !! i) as [[]|]; simpl; [|done|done].
  - destruct (foldr _ _ _ !! i); simpl; intros H; discriminate H.
Qed.

Lemma add_diagnostic_categories_inv df df' :
  add_diagnostic_categories df = (inr (), df') →
  ∃ x1 x2 x3 x4 df1 df2,
    columns df !! "NPDx1" = Some x1 ∧ columns df !! "NPDx2" = Some x2
    ∧ columns df !! "NPDx3" = Some x3 ∧ columns df !! "NPDx4" = Some x4
    ∧ let f := [x1; x2; x3; x4] in
      let n := nrows df in
      let ad := any_axis1 n (frame_eq_str f ad_label) in
      let nadt := is_first_diag_nadt x1 in
      let nadt_ftld := any_axis1 n (frame_isin f nadt_ftld_labels) in
      let late := any_axis1 n (frame_eq_str f late_label) in
      let is_ad := series_and ad (series_neg nadt_ftld) in
      let is_ad_cont := series_neg nadt_ftld in
      adnc_block df = (inr (), df1)
      ∧ late_block late df1 = (inr (), df2)
      ∧ df' =
          assign "is_clean_late_ad_cont" (Bool <$> series_and is_ad_cont late)
          (assign "is_clean_late_ad" (Bool <$> series_and is_ad late)
          (assign "is_clean_ad_cont" (replace_bool_int is_ad_cont)
          (assign "is_clean_ad" (replace_bool_int is_ad)
          (assign "is_robin_eligible"
             (replace_bool_int (series_and ad (series_neg nadt)))
          (assign "is_any_diag_late" (replace_bool_int late)
          (assign "is_any_diag_nadt_ftld" (replace_bool_int nadt_ftld)
          (assign "is_any_diag_ad" (replace_bool_int ad) df2))))))).
Proof.
  unfold add_diagnostic_categories.
  unfold mbind, M_bind, get_frame.
  destruct (getitems npdx df) as [[e|f] df0] eqn:Hf;
    [intros H; discriminate H|].
  pose proof Hf as Hg.
  apply getitems_npdx_inv in Hf
    as (x1 & x2 & x3 & x4 & H1 & H2 & H3 & H4 & -> & ->).
  repeat (rewrite ?Hg, ?(getitem_Some _ _ _ H1); cbv beta iota zeta).
  intros H. exists x1, x2, x3, x4.
  destruct (adnc_block df) as [[e|[]] df1] eqn:Hadnc; [discriminate H|].
  destruct (late_block _ df1) as [[e|[]] df2] eqn:Hlate; [discriminate H|].
  exists df1, df2. repeat (split; [done|]).
  unfold setitem in H. by injection H as <-.
Qed.

(** ** Composite flags *)

Lemma nadt_labels_subset s : s ∈ nadt_labels → s ∈ nadt_ftld_labels.
Proof.
  unfold nadt_labels, nadt_ftld_labels. rewrite !elem_of_cons, !elem_of_nil.
  tauto.
Qed.

Lemma cell_isin_subset (l k : list string) c :
  (∀ s, s ∈ l → s ∈ k) → cell_isin k c = false → cell_isin l c = false.
Proof.
  intros Hsub. destruct c as [| |s|]; simpl; try done.
  rewrite !bool_decide_eq_false. auto.
Qed.

Lemma replace_bool_int_lookup_1 (m : list bool) i :
  replace_bool_int m !! i = Some (Num 1) ↔ m !! i = Some true.
Proof.
  unfold replace_bool_int. rewrite list_lookup_fmap.
  destruct (m !! i) as [[]|]; simpl.
  - done.
  - split; intros H; [|discriminate H].
    by injection H.
  - split; intros H; discriminate H.
Qed.

(** C9: a record that is a clean AD case is Robin-eligible, because each of
    the six labels tested against slot 1 is one of the thirteen labels
    tested against all four slots. *)
Theorem clean_ad_implies_robin_eligible (df df' : DataFrame) (i : nat) :
  add_diagnostic_categories df = (inr (), df') →
  columns df' !! "is_clean_ad" ≫= (.!! i) = Some (Num 1) →
  columns df' !! "is_robin_eligible" ≫= (.!! i) = Some (Num 1)
  ∧ (∀ s, s ∈ nadt_labels → s ∈ nadt_ftld_labels)
  ∧ length nadt_labels = 6%nat ∧ length nadt_ftld_labels = 13%nat.
Proof.
  intros Hrun Hclean. split; [|split; [apply nadt_labels_subset|done]].
  apply add_diagnostic_categories_inv in Hrun
    as (x1 & x2 & x3 & x4 & df1 & df2 & H1 & H2 & H3 & H4 & Hrun).
  cbv zeta in Hrun. destruct Hrun as (_ & _ & ->).
  rewrite !columns_assign_ne, columns_assign_eq in Hclean by done.
  rewrite !columns_assign_ne, columns_assign_eq by done.
  cbn [mbind option_bind] in *. apply replace_bool_int_lookup_1 in Hclean.
  apply replace_bool_int_lookup_1.
  assert (any_axis1 (nrows df) (frame_isin [x1; x2; x3; x4] nadt_ftld_labels)
            !! i = Some false →
          is_first_diag_nadt x1 !! i = Some false) as Hfirst.
  { intros Hany. apply any_axis1_lookup_false in Hany.
    unfold is_first_diag_nadt, isin in *.
    rewrite list_lookup_fmap in Hany. rewrite list_lookup_fmap.
    destruct (x1 !! i) as [c1|]; [|done].
    injection Hany as Hany. cbn [fmap option_fmap option_map].
    by rewrite (cell_isin_subset _ _ _ nadt_labels_subset Hany). }
  unfold series_and, series_neg in *.
  rewrite lookup_zip_with in Hclean. rewrite lookup_zip_with.
  rewrite list_lookup_fmap in Hclean. rewrite list_lookup_fmap.
  destruct (any_axis1 _ (frame_eq_str _ _) !! i) as [[]|]; [| |done].
  - destruct (any_axis1 _ (frame_isin _ _) !! i) as [[]|]; [done| |done].
    by rewrite Hfirst.
  - by destruct (any_axis1 _ (frame_isin _ _) !! i) as [[]|].
Qed.

(** ** ADNC severity *)

Lemma cell_number_isnull c q : cell_number c = Some q → cell_isnull c = false.
Proof. by destruct c. Qed.

Lemma cell_gtb_number t c q :
  cell_number c = Some q → cell_gtb t c = bool_decide (t < q).
Proof. destruct c; simpl; intros H; by simplify_eq. Qed.

Lemma bool_decide_gt_mono (t q q' : Qc) :
  (q ≤ q')%Qc → bool_decide (t < q) = true → bool_decide (t < q') = true.
Proof.
  rewrite !bool_decide_eq_true. intros Hle Hlt.
  by apply Qclt_le_trans with q.
Qed.

Lemma severity_levels_ordered :
  (0 ≤ 0 ∧ 0 ≤ 1 ∧ 0 ≤ q_two ∧ 0 ≤ q_three
   ∧ 1 ≤ 1 ∧ 1 ≤ q_two ∧ 1 ≤ q_three
   ∧ q_two ≤ q_two ∧ q_two ≤ q_three ∧ q_three ≤ q_three)%Qc.
Proof. repeat split; by vm_compute. Qed.

Lemma adnc_cell_mono a b c a' b' c' qa qb qc qa' qb' qc' :
  cell_number a = Some qa → cell_number b = Some qb →
  cell_number c = Some qc →
  cell_number a' = Some qa' → cell_number b' = Some qb' →
  cell_number c' = Some qc' →
  (qa ≤ qa')%Qc → (qb ≤ qb')%Qc → (qc ≤ qc')%Qc →
  ∃ s s',
    adnc_cell a b c = Num s ∧ adnc_cell a' b' c' = Num s' ∧ (s ≤ s')%Qc.
Proof.
  intros Ha Hb Hc Ha' Hb' Hc' Hqa Hqb Hqc. unfold adnc_cell.
  rewrite (cell_number_isnull _ _ Ha), (cell_number_isnull _ _ Hb),
    (cell_number_isnull _ _ Hc), (cell_number_isnull _ _ Ha'),
    (cell_number_isnull _ _ Hb'), (cell_number_isnull _ _ Hc').
  rewrite !(cell_gtb_number _ _ _ Ha), !(cell_gtb_number _ _ _ Hb),
    !(cell_gtb_number _ _ _ Hc), !(cell_gtb_number _ _ _ Ha'),
    !(cell_gtb_number _ _ _ Hb'), !(cell_gtb_number _ _ _ Hc').
  pose proof (bool_decide_gt_mono q_half _ _ Hqa) as A1.
  pose proof (bool_decide_gt_mono q_one_half _ _ Hqa) as A2.
  pose proof (bool_decide_gt_mono q_two_half _ _ Hqa) as A3.
  pose proof (bool_decide_gt_mono q_one_half _ _ Hqb) as B2.
  pose proof (bool_decide_gt_mono q_two_half _ _ Hqb) as B3.
  pose proof (bool_decide_gt_mono q_one_half _ _ Hqc) as C2.
  pose proof severity_levels_ordered as Hord.
  destruct (bool_decide (q_half < qa)), (bool_decide (q_half < qa'));
    try discriminate (A1 eq_refl); clear A1;
  destruct (bool_decide (q_one_half < qa)), (bool_decide (q_one_half < qa'));
    try discriminate (A2 eq_refl); clear A2;
  destruct (bool_decide (q_two_half < qa)), (bool_decide (q_two_half < qa'));
    try discriminate (A3 eq_refl); clear A3;
  destruct (bool_decide (q_one_half < qb)), (bool_decide (q_one_half < qb'));
    try discriminate (B2 eq_refl); clear B2;
  destruct (bool_decide (q_two_half < qb)), (bool_decide (q_two_half < qb'));
    try discriminate (B3 eq_refl); clear B3;
  destruct (bool_decide (q_one_half < qc)), (bool_decide (q_one_half < qc'));
    try discriminate (C2 eq_refl); clear C2;
  cbn [andb]; (do 2 eexists);
  (split; [reflexivity|split; [reflexivity|tauto]]).
Qed.

(** C7: once the severity column is computed every record holds a missing
    value or 0, 1, 2 or 3, and of two records with numeric inputs the one
    whose amyloid score, merged Braak stage and plaque density are at least
    the other's has at least the other's severity. *)
Theorem adnc_severity_range_and_monotone (df df' : DataFrame) (a b c : Series) :
  add_diagnostic_categories df = (inr (), df') →
  columns df !! "ABeta" = Some a →
  columns df !! "BraakMrg" = Some b →
  columns df !! "CERAD" = Some c →
  ∃ sev,
    columns df' !! "ADNC_severity" = Some sev
    ∧ length sev = nrows df
    ∧ Forall (λ v, v ∈ [NaN; Num 0; Num 1; Num q_two; Num q_three]) sev
    ∧ ∀ i j ca cb cc ca' cb' cc' qa qb qc qa' qb' qc',
        (i < nrows df)%nat → (j < nrows df)%nat →
        a !! i = Some ca → b !! i = Some cb → c !! i = Some cc →
        a !! j = Some ca' → b !! j = Some cb' → c !! j = Some cc' →
        cell_number ca = Some qa → cell_number cb = Some qb →
        cell_number cc = Some qc →
        cell_number ca' = Some qa' → cell_number cb' = Some qb' →
        cell_number cc' = Some qc' →
        (qa ≤ qa')%Qc → (qb ≤ qb')%Qc → (qc ≤ qc')%Qc →
        ∃ s s',
          sev !! i = Some (Num s) ∧ sev !! j = Some (Num s') ∧ (s ≤ s')%Qc.
Proof.
  intros Hrun Ha Hb Hc.
  apply add_diagnostic_categories_inv in Hrun
    as (x1 & x2 & x3 & x4 & df1 & df2 & _ & _ & _ & _ & Hrun).
  cbv zeta in Hrun. destruct Hrun as (Hadnc & Hlate & ->).
  destruct (adnc_block_spec _ _ _ _ _ Ha Hb Hc Hadnc)
    as (sev & -> & Hlen & Hrange & Hrow).
  exists sev. split.
  { rewrite !columns_assign_ne by done.
    apply late_block_frame in Hlate as [->|[stage ->]];
      rewrite ?columns_assign_ne by done; apply columns_assign_eq. }
  split; [done|]. split; [done|].
  intros i j ca cb cc ca' cb' cc' qa qb qc qa' qb' qc' Hi Hj
    Hai Hbi Hci Haj Hbj Hcj Na Nb Nc Na' Nb' Nc' La Lb Lc.
  rewrite (Hrow i ca cb cc), (Hrow j ca' cb' cc') by done.
  destruct (adnc_cell_mono _ _ _ _ _ _ _ _ _ _ _ _ Na Nb Nc Na' Nb' Nc'
              La Lb Lc) as (s & s' & -> & -> & Hle).
  by exists s, s'.
Qed.

Lemma adnc_severity_range_and_monotone_witness :
  ∃ sev,
    columns (add_diagnostic_categories cohort).2 !! "ADNC_severity" = Some sev
    ∧ length sev = 3%nat
    ∧ ∃ s s', sev !! 2%nat = Some (Num s) ∧ sev !! 0%nat = Some (Num s')
              ∧ (s ≤ s')%Qc.
Proof.
  destruct (adnc_severity_range_and_monotone cohort
              (add_diagnostic_categories cohort).2
              [Num q_three; NaN; Num 1] [Num q_three; Num 1; Num 1]
              [Num q_two; Num 1; Num 1])
    as (sev & Hsev & Hlen & _ & Hmono).
  - vm_compute. reflexivity.
  - vm_compute. reflexivity.
  - vm_compute. reflexivity.
  - vm_compute. reflexivity.
  - exists sev. split; [exact Hsev|]. split; [exact Hlen|].
    apply (Hmono 2%nat 0%nat (Num 1) (Num 1) (Num 1)
             (Num q_three) (Num q_three) (Num q_two)
             1 1 1 q_three q_three q_two);
      try reflexivity; simpl; try lia; by vm_compute.
Defined.

(** ** LATE stage *)

Lemma mtl_tdp_cell_missing c1 c2 c3 avg :
  c1 = NaN ∨ c2 = NaN ∨ c3 = NaN →
  mtl_tdp_cell c1 c2 c3 = inr avg → avg = None.
Proof.
  unfold mtl_tdp_cell.
  intros Hnan.
  destruct c1, c2, c3; simpl; intros H; simplify_eq; try done;
    by destruct Hnan as [?|[?|?]].
Qed.

Lemma late_stage_cell_missing : late_stage_cell true None = Num 1.
Proof. reflexivity. Qed.

Lemma slots_at_Some df i slots :
  slots_at df i = Some slots →
  ∃ x1 x2 x3 x4 c1 c2 c3 c4,
    columns df !! "NPDx1" = Some x1 ∧ columns df !! "NPDx2" = Some x2
    ∧ columns df !! "NPDx3" = Some x3 ∧ columns df !! "NPDx4" = Some x4
    ∧ x1 !! i = Some c1 ∧ x2 !! i = Some c2
    ∧ x3 !! i = Some c3 ∧ x4 !! i = Some c4
    ∧ slots = [c1; c2; c3; c4].
Proof.
  unfold slots_at. intros H.
  destruct (columns df !! "NPDx1") as [x1|]; [|done].
  destruct (columns df !! "NPDx2") as [x2|];
    [|simpl in H; by destruct (x1 !! i)].
  destruct (columns df !! "NPDx3") as [x3|];
    [|simpl in H; by destruct (x1 !! i), (x2 !! i)].
  destruct (columns df !! "NPDx4") as [x4|];
    [|simpl in H; by destruct (x1 !! i), (x2 !! i), (x3 !! i)].
  simpl in H.
  destruct (x1 !! i) as [c1|] eqn:E1; [|done].
  destruct (x2 !! i) as [c2|] eqn:E2; [|done].
  destruct (x3 !! i) as [c3|] eqn:E3; [|done].
  destruct (x4 !! i) as [c4|] eqn:E4; [|done].
  simplify_eq/=.
  by exists x1, x2, x3, x4, c1, c2, c3, c4.
Qed.

Lemma existsb_eq_str label (slots : list cell) :
  existsb (cell_eq_str label) slots = true ↔ Str label ∈ slots.
Proof.
  rewrite existsb_exists. split.
  - intros (c & Hin & Hc). apply list_elem_of_In in Hin.
    destruct c as [| |s|]; simpl in Hc; try done.
    by apply bool_decide_eq_true in Hc as ->.
  - intros Hin. exists (Str label). split; [by apply list_elem_of_In|].
    simpl. by apply bool_decide_eq_true.
Qed.

(** C10: once the stage column is created every record holds 0, 1 or 2,
    never a missing value, and a record with a LATE diagnosis one of whose
    regional scores is missing holds 1. *)
Theorem late_stage_never_missing (df df' : DataFrame) (cs dg ec : Series) :
  add_diagnostic_categories df = (inr (), df') →
  columns df !! "CSTDP43" = Some cs →
  columns df !! "DGTDP43" = Some dg →
  columns df !! "ECTDP43" = Some ec →
  ∃ stage,
    columns df' !! "LATE_stage" = Some stage
    ∧ length stage = nrows df
    ∧ Forall (λ v, v ∈ [Num 0; Num 1; Num q_two]) stage
    ∧ ∀ i slots c1 c2 c3,
        (i < nrows df)%nat →
        slots_at df i = Some slots → Str late_label ∈ slots →
        cs !! i = Some c1 → dg !! i = Some c2 → ec !! i = Some c3 →
        c1 = NaN ∨ c2 = NaN ∨ c3 = NaN →
        stage !! i = Some (Num 1).
Proof.
  intros Hrun Hcs Hdg Hec.
  apply add_diagnostic_categories_inv in Hrun
    as (x1 & x2 & x3 & x4 & df1 & df2 & H1 & H2 & H3 & H4 & Hrun).
  cbv zeta in Hrun. destruct Hrun as (Hadnc & Hlate & ->).
  assert (nrows df1 = nrows df
          ∧ columns df1 !! "CSTDP43" = Some cs
          ∧ columns df1 !! "DGTDP43" = Some dg
          ∧ columns df1 !! "ECTDP43" = Some ec) as (Hn & Hcs1 & Hdg1 & Hec1).
  { apply adnc_block_frame in Hadnc as [->|[sev ->]];
      rewrite ?columns_assign_ne by done; done. }
  destruct (late_block_spec _ _ _ _ _ _ Hcs1 Hdg1 Hec1 Hlate)
    as (stage & -> & Hlen & Hrange & Hrow).
  exists stage. split.
  { rewrite !columns_assign_ne by done. apply columns_assign_eq. }
  split; [congruence|]. split; [done|].
  intros i slots c1 c2 c3 Hi Hslots Hin Hc1 Hc2 Hc3 Hnan.
  apply slots_at_Some in Hslots
    as (y1 & y2 & y3 & y4 & d1 & d2 & d3 & d4 & ? & ? & ? & ?
        & Hd1 & Hd2 & Hd3 & Hd4 & ->).
  simplify_eq.
  rewrite <- Hn in Hi.
  destruct (Hrow i true c1 c2 c3 Hi) as (avg & Havg & ->); try done.
  - rewrite Hn in *. unfold frame_eq_str.
    rewrite (any_axis1_lookup _ _ _ _ _ _ _ _ _ _ _ Hi Hd1 Hd2 Hd3 Hd4).
    f_equal. apply existsb_eq_str in Hin. simpl in Hin.
    by rewrite orb_false_r, !orb_assoc in Hin.
  - by rewrite (mtl_tdp_cell_missing _ _ _ _ Hnan Havg).
Qed.

Lemma late_stage_never_missing_witness :
  ∃ stage,
    columns (add_diagnostic_categories cohort).2 !! "LATE_stage" = Some stage
    ∧ length stage = 3%nat
    ∧ stage !! 2%nat = Some (Num 1).
Proof.
  destruct (late_stage_never_missing cohort
              (add_diagnostic_categories cohort).2
              [Num 0; Num 1; NaN] [Num 0; Num q_half; Num 1]
              [Num 0; Num 0; Num 1])
    as (stage & Hstage & Hlen & _ & Hrow).
  - vm_compute. reflexivity.
  - vm_compute. reflexivity.
  - vm_compute. reflexivity.
  - vm_compute. reflexivity.
  - exists stage. split; [exact Hstage|]. split; [exact Hlen|].
    apply (Hrow 2%nat [Str late_label; NaN; NaN; Str ad_label]
             NaN (Num 1) (Num 1)).
    + simpl. lia.
    + vm_compute. reflexivity.
    + left.
    + reflexivity.
    + reflexivity.
    + reflexivity.
    + by left.
Defined.

Lemma late_stage_cell_two (late : bool) (avg : float) :
  late_stage_cell late avg = Num q_two
  ↔ late = true ∧ ∃ q, avg = Some q ∧ q ≠ 0.
Proof.
  unfold late_stage_cell.
  destruct late, avg as [q|]; simpl;
    try (split; [intros H; by injection H|by intros [? ?]]).
  - destruct (bool_decide (q = 0)) eqn:Hq; simpl.
    + apply bool_decide_eq_true in Hq as ->.
      split; [intros H; by injection H|]. intros (_ & q & Hq & Hne).
      by simplify_eq.
    + apply bool_decide_eq_false in Hq. split; [eauto|by intros _].
  - split; [intros H; by injection H|]. by intros (_ & q & ? & _).
Qed.

(** C1, on the code: the record of [late_negative_scores] has a LATE
    diagnosis and a regional average of -1, which is not greater than 0,
    and it is given stage 2. *)
Theorem late_stage_two_on_negative_average :
  (add_diagnostic_categories late_negative_scores).1 = inr ()
  ∧ slots_at late_negative_scores 0 = Some [Str late_label; NaN; NaN; NaN]
  ∧ mtl_tdp_cell (Num (-1)) (Num (-1)) (Num (-1)) = inr (Some (-1))
  ∧ ¬ (0 < -1)%Qc
  ∧ columns (add_diagnostic_categories late_negative_scores).2 !! "LATE_stage"
    = Some [Num q_two].
Proof.
  split; [by vm_compute|]. split; [by vm_compute|].
  split; [apply (bool_decide_unpack _); by vm_compute|].
  split; [by vm_compute|]. by vm_compute.
Qed.

Lemma adnc_cell_missing_braak (qa : Qc) (c : cell) :
  (q_half < qa)%Qc → adnc_cell (Num qa) NaN c = Num 1.
Proof.
  intros H. unfold adnc_cell. cbn.
  by rewrite (bool_decide_eq_true_2 _ H).
Qed.

Lemma adnc_cell_missing_abeta (b c : cell) : adnc_cell NaN b c = NaN.
Proof.
  unfold adnc_cell. cbn [cell_isnull cell_gtb cell_gt].
  rewrite !andb_false_r. cbn [andb].
  by destruct (cell_isnull c), (cell_isnull b).
Qed.

(** C2, on the code: the record of [braak_missing] has no merged Braak
    stage, and its severity is 1, not missing. *)
Theorem adnc_severity_numeric_with_missing_braak :
  (add_diagnostic_categories braak_missing).1 = inr ()
  ∧ columns braak_missing !! "ABeta" = Some [Num 1]
  ∧ columns braak_missing !! "BraakMrg" = Some [NaN]
  ∧ columns braak_missing !! "CERAD" = Some [Num 1]
  ∧ columns (add_diagnostic_categories braak_missing).2 !! "ADNC_severity"
    = Some [Num 1].
Proof. repeat split; by vm_compute. Qed.

Lemma clean_ad_implies_robin_eligible_witness :
  columns (add_diagnostic_categories cohort).2 !! "is_robin_eligible"
    ≫= (.!! 2%nat) = Some (Num 1).
Proof.
  apply (clean_ad_implies_robin_eligible cohort
           (add_diagnostic_categories cohort).2 2).
  - vm_compute. reflexivity.
  - vm_compute. reflexivity.
Defined.

(** ** The stage reconciler *)

Lemma Qcdiv_one (x : Qc) : x / Qc_of_Z 1 = x.
Proof.
  unfold Qcdiv. replace (/ Qc_of_Z 1) with 1%Qc
    by (apply Qc_is_canon; reflexivity).
  apply Qcmult_1_r.
Qed.

Lemma nanmean_pair (coarse fine : float) :
  cell_of_float (nanmean [coarse; fine])
  = match coarse, fine with
    | None, None => NaN
    | Some a, None => Num a
    | None, Some b => Num b
    | Some a, Some b => Num ((a + b) / q_two)
    end.
Proof.
  destruct coarse as [a|], fine as [b|]; unfold nanmean; simpl;
    rewrite ?Qcplus_0_r, ?Qcdiv_one; reflexivity.
Qed.

Section MergeProperties.

Variable float_of_str : string → option float.

Lemma merge_braak_stages_absent df :
  columns df !! "Braak06" = None ∨ columns df !! "Braak03" = None →
  merge_braak_stages float_of_str df = (inr (), df).
Proof.
  intros H. unfold merge_braak_stages, mbind, M_bind, get_frame.
  destruct H as [H|H]; rewrite (has_column_false _ _ H);
    rewrite ?andb_false_r; reflexivity.
Qed.

(** C5, as amended: when both staging columns exist, the merged stage of a
    record is missing when both sources are missing once 'Unknown' counts
    as missing, the fine stage when only the coarse one is missing, the
    coarse stage halved and rounded up when only the fine one is missing,
    and the mean of that and the fine stage when both are present; when a
    staging column is absent the frame is returned as it is. *)
Theorem merge_braak_stages_rows (df df' : DataFrame) (x6 x3 : Series) :
  columns df !! "Braak06" = Some x6 →
  columns df !! "Braak03" = Some x3 →
  merge_braak_stages float_of_str df = (inr (), df') →
  (∃ mrg,
     df' = assign "BraakMrg" mrg df
     ∧ ∀ i c6 c3,
         x6 !! i = Some c6 → x3 !! i = Some c3 →
         ∃ coarse fine,
           cell_to_float float_of_str (replace_cell [("Unknown", NaN)] c6)
             = inr coarse
           ∧ cell_to_float float_of_str (replace_cell [("Unknown", NaN)] c3)
             = inr fine
           ∧ mrg !! i
             = Some match coarse, fine with
                    | None, None => NaN
                    | Some a, None => Num (Qc_ceil (a * q_half))
                    | None, Some b => Num b
                    | Some a, Some b =>
                        Num ((Qc_ceil (a * q_half) + b) / q_two)
                    end)
  ∧ cell_to_float float_of_str (replace_cell [("Unknown", NaN)] (Str "Unknown"))
    = inr None
  ∧ ∀ df0,
      columns df0 !! "Braak06" = None ∨ columns df0 !! "Braak03" = None →
      merge_braak_stages float_of_str df0 = (inr (), df0).
Proof.
  intros H6 H3 Hrun.
  split; [|split; [reflexivity|apply merge_braak_stages_absent]].
  revert Hrun. unfold merge_braak_stages, mbind, M_bind, get_frame, lift.
  rewrite (has_column_true _ _ _ H6), (has_column_true _ _ _ H3).
  cbn [andb]. rewrite (getitem_Some _ _ _ H6).
  destruct (astype_float32 _ (map _ x6)) as [e|v6] eqn:Hv6;
    [intros H; discriminate H|].
  rewrite (getitem_Some _ _ _ H3).
  destruct (astype_float32 _ (map _ x3)) as [e|v3] eqn:Hv3;
    [intros H; discriminate H|].
  unfold setitem. intros [= <-]. eexists. split; [reflexivity|].
  intros i c6 c3 Hc6 Hc3.
  destruct (mapE_lookup _ _ _ i (replace_cell unknown_to_nan c6) Hv6)
    as (coarse & Hcoarse & Hf6); [by rewrite list_lookup_fmap, Hc6|].
  destruct (mapE_lookup _ _ _ i (replace_cell unknown_to_nan c3) Hv3)
    as (fine & Hfine & Hf3); [by rewrite list_lookup_fmap, Hc3|].
  exists coarse, fine. split; [done|]. split; [done|].
  unfold stack2.
  rewrite !list_lookup_fmap, lookup_zip_with, list_lookup_fmap.
  rewrite Hcoarse, Hfine. cbn [fmap option_fmap option_map mbind option_bind].
  rewrite nanmean_pair. by destruct coarse, fine.
Qed.

End MergeProperties.

Lemma merge_braak_stages_rows_witness :
  ∃ mrg,
    (merge_braak_stages decimal_float_of_str staged_texts).2
      = assign "BraakMrg" mrg staged_texts
    ∧ mrg !! 0%nat = Some (Num (Qc_ceil (Qc_of_Z 4 * q_half)))
    ∧ mrg !! 1%nat = Some (Num 1)
    ∧ mrg !! 3%nat = Some NaN.
Proof.
  destruct (merge_braak_stages_rows decimal_float_of_str staged_texts
              (merge_braak_stages decimal_float_of_str staged_texts).2
              [Str "4"; Str "Unknown"; Str "5"; NaN]
              [NaN; Num 1; Str "3"; Str "Unknown"])
    as ((mrg & Hmrg & Hrow) & _).
  - vm_compute. reflexivity.
  - vm_compute. reflexivity.
  - vm_compute. reflexivity.
  - exists mrg. split; [exact Hmrg|].
    destruct (Hrow 0%nat (Str "4") NaN eq_refl eq_refl)
      as (c0 & f0 & Hc0 & Hf0 & H0).
    destruct (Hrow 1%nat (Str "Unknown") (Num 1) eq_refl eq_refl)
      as (c1 & f1 & Hc1 & Hf1 & H1).
    destruct (Hrow 3%nat NaN (Str "Unknown") eq_refl eq_refl)
      as (c3 & f3 & Hc3 & Hf3 & H3).
    vm_compute in Hc0, Hf0, Hc1, Hf1, Hc3, Hf3. simplify_eq.
    rewrite H0, H1, H3. repeat split; reflexivity.
Defined.

(** C5, as stated, fails: with the fine stage missing the merged stage of a
    record staged 4 on the coarse scale is 2, not 4. *)
Lemma merge_braak_stages_coarse_only_not_copied :
  ¬ ∀ (float_of_str : string → option float) (df df' : DataFrame)
      (x6 x3 mrg : Series) (i : nat) (c6 : cell),
      columns df !! "Braak06" = Some x6 →
      columns df !! "Braak03" = Some x3 →
      merge_braak_stages float_of_str df = (inr (), df') →
      columns df' !! "BraakMrg" = Some mrg →
      x6 !! i = Some c6 → x3 !! i = Some NaN →
      replace_cell [("Unknown", NaN)] c6 ≠ NaN →
      mrg !! i = Some c6.
Proof.
  intros H.
  specialize (H decimal_float_of_str coarse_only
    (merge_braak_stages decimal_float_of_str coarse_only).2
    [Num (Qc_of_Z 4)] [NaN]
    (default []
       (columns (merge_braak_stages decimal_float_of_str coarse_only).2
          !! "BraakMrg"))
    0%nat (Num (Qc_of_Z 4))).
  assert ((default []
       (columns (merge_braak_stages decimal_float_of_str coarse_only).2
          !! "BraakMrg")) !! 0%nat = Some (Num (Qc_of_Z 4)) → False) as Hne.
  { vm_compute. intros Heq. by injection Heq. }
  apply Hne, H; try (vm_compute; reflexivity).
  simpl. intros Heq. discriminate Heq.
Qed.

(** On averages that are not negative the mask of the source agrees with
    [is_any_diag_late & (mtl_tdp > 0)]. *)
Lemma late_stage_cell_nonneg (late : bool) (q : Qc) :
  (0 ≤ q)%Qc →
  (late_stage_cell late (Some q) = Num q_two ↔ late = true ∧ (0 < q)%Qc).
Proof.
  intros Hq. rewrite late_stage_cell_two. split.
  - intros (-> & q' & [= <-] & Hne). split; [done|].
    apply Qcle_lt_or_eq in Hq as [?|?]; [done|]. by destruct Hne.
  - intros (-> & Hlt). split; [done|]. exists q. split; [done|].
    intros ->. by apply Qclt_not_eq in Hlt.
Qed.

(** * Further properties *)

(** ** The field recoder on whole tables *)

Lemma const_dict_lookup_Some {A} (cols : list string) (d d' : A) col :
  (list_to_map ((λ x, (x, d)) <$> cols) : gmap string A) !! col = Some d' →
  d' = d ∧ col ∈ cols.
Proof.
  intros H. apply elem_of_list_to_map_2 in H.
  apply list_elem_of_fmap in H as (x & Hx & Hin). by simplify_eq.
Qed.

Lemma const_dict_lookup_None {A} (cols : list string) (d : A) col :
  col ∉ cols →
  (list_to_map ((λ x, (x, d)) <$> cols) : gmap string A) !! col = None.
Proof.
  intros Hcol. destruct (list_to_map _ !! col) as [d'|] eqn:H; [|done].
  by apply const_dict_lookup_Some in H as [_ ?].
Qed.

Lemma DataFrame_eq (df1 df2 : DataFrame) :
  nrows df1 = nrows df2 →
  (∀ c, columns df1 !! c = columns df2 !! c) →
  df1 = df2.
Proof.
  destruct df1 as [n1 m1], df2 as [n2 m2]. cbn [nrows columns].
  intros -> H. f_equal. by apply map_eq.
Qed.

(** The values of the recoding table are numbers or missing, never texts. *)
Lemma repl_semiq_values k v :
  dict_get repl_semiq k = Some v → ∀ s, v ≠ Str s.
Proof.
  unfold repl_semiq. simpl.
  repeat (case_bool_decide; [intros [= <-] s Hs; discriminate Hs|]).
  intros Hnone. discriminate Hnone.
Qed.

Lemma replace_cell_repl_semiq_idemp c :
  replace_cell repl_semiq (replace_cell repl_semiq c)
  = replace_cell repl_semiq c.
Proof.
  destruct c as [| |s|]; try reflexivity.
  cbn [replace_cell]. destruct (dict_get repl_semiq s) as [v|] eqn:Hv.
  - cbn [default]. pose proof (repl_semiq_values _ _ Hv) as Hns.
    destruct v as [| |s'|]; try reflexivity. by destruct (Hns s').
  - cbn [default replace_cell]. by rewrite Hv.
Qed.

Lemma replace_cell_repl_semiq_not_key c k :
  k ∈ repl_semiq.*1 → replace_cell repl_semiq c ≠ Str k.
Proof.
  intros Hk Heq.
  assert (dict_get repl_semiq k = None) as Hnone.
  { destruct c as [| |s|]; try discriminate Heq.
    cbn [replace_cell] in Heq.
    destruct (dict_get repl_semiq s) as [v|] eqn:Hv; cbn [default] in Heq.
    - by destruct (repl_semiq_values _ _ Hv k).
    - by simplify_eq. }
  revert Hnone. clear Heq. revert Hk. unfold repl_semiq. simpl.
  rewrite !elem_of_cons, elem_of_nil.
  intros Hk. repeat (case_bool_decide; [intros Hd; discriminate Hd|]).
  intros _. intuition congruence.
Qed.

(** X1: a column whose name is not in the region x measure list is returned
    as it is. *)
Theorem semiq_scores_to_numeric_other_columns (df : DataFrame) (col : string) :
  col ∉ cols_semiq →
  columns (semiq_scores_to_numeric df) !! col = columns df !! col.
Proof.
  intros Hcol. unfold semiq_scores_to_numeric.
  rewrite replace_nested_lookup, const_dict_lookup_None by done.
  by destruct (columns df !! col).
Qed.

Lemma semiq_scores_to_numeric_other_columns_witness :
  columns (semiq_scores_to_numeric cohort) !! "ABeta"
  = columns cohort !! "ABeta".
Proof.
  apply semiq_scores_to_numeric_other_columns.
  apply (bool_decide_unpack _). by vm_compute.
Defined.

(** X2: the recoder keeps the shape of the table: the number of rows, the
    set of column names and the length of every column. *)
Theorem semiq_scores_to_numeric_shape (df : DataFrame) :
  nrows (semiq_scores_to_numeric df) = nrows df
  ∧ dom (columns (semiq_scores_to_numeric df)) = dom (columns df)
  ∧ length <$> columns (semiq_scores_to_numeric df) = length <$> columns df.
Proof.
  split; [done|].
  assert (length <$> columns (semiq_scores_to_numeric df)
          = length <$> columns df) as Hlen.
  { apply map_eq. intros col. rewrite !lookup_fmap.
    unfold semiq_scores_to_numeric. rewrite replace_nested_lookup.
    destruct (columns df !! col) as [s|]; [|done].
    cbn [fmap option_fmap option_map].
    destruct (_ !! col); by rewrite ?length_map. }
  split; [|done].
  apply (f_equal dom) in Hlen. by rewrite !dom_fmap_L in Hlen.
Qed.

(** X3: recoding a recoded table changes nothing. *)
Theorem semiq_scores_to_numeric_idempotent (df : DataFrame) :
  semiq_scores_to_numeric (semiq_scores_to_numeric df)
  = semiq_scores_to_numeric df.
Proof.
  apply DataFrame_eq; [reflexivity|]. intros col.
  unfold semiq_scores_to_numeric. rewrite !replace_nested_lookup.
  destruct (columns df !! col) as [s|]; [|done].
  cbn [fmap option_fmap option_map].
  destruct (_ !! col) as [d|] eqn:Hd; [|done].
  apply const_dict_lookup_Some in Hd as [-> _].
  f_equal. rewrite <- list_fmap_compose.
  apply list_fmap_ext. intros i c _. apply replace_cell_repl_semiq_idemp.
Qed.

(** X4: after recoding, no cell of a region x measure column holds one of
    the nine recognised tokens. *)
Theorem semiq_scores_to_numeric_no_token_left
    (df : DataFrame) (col : string) (s : Series) (c : cell) (k : string) :
  col ∈ cols_semiq →
  columns (semiq_scores_to_numeric df) !! col = Some s →
  c ∈ s →
  k ∈ ["Rare"; "0"; "Presumed 0"; "1+"; "2+"; "3+";
       "Not Avail"; "Not Done"; "Not Available"] →
  c ≠ Str k.
Proof.
  intros Hcol Hs Hc Hk. unfold semiq_scores_to_numeric in Hs.
  rewrite replace_nested_lookup, const_dict_lookup in Hs by done.
  destruct (columns df !! col) as [s0|]; [|done].
  cbn [fmap option_fmap option_map] in Hs.
  injection Hs as <-. apply list_elem_of_fmap in Hc as (c0 & -> & _).
  apply replace_cell_repl_semiq_not_key.
  revert Hk. unfold repl_semiq. simpl. rewrite !elem_of_cons, !elem_of_nil.
  tauto.
Qed.

Lemma semiq_scores_to_numeric_no_token_left_witness :
  Num q_half ≠ Str "Rare".
Proof.
  apply (semiq_scores_to_numeric_no_token_left
           (mkDF 2 {["CSTDP43" := [Str "Rare"; Str "Borderline"]]})
           "CSTDP43" [Num q_half; Str "Borderline"]).
  - apply (bool_decide_unpack _). by vm_compute.
  - vm_compute. reflexivity.
  - left.
  - left.
Defined.

(** ** The stage reconciler on whole tables *)

Lemma mapE_inl {A B} (f : A → exc + B) l e :
  mapE f l = inl e → ∃ x, x ∈ l ∧ f x = inl e.
Proof.
  induction l as [|x l IH]; simpl; [intros H; discriminate H|].
  destruct (f x) as [e'|y] eqn:Hx.
  - intros [= ->]. exists x. split; [left|done].
  - destruct (mapE f l) as [e'|ys]; [|intros H; discriminate H].
    intros [= ->]. destruct (IH eq_refl) as (x' & Hin & Hx').
    exists x'. split; [by right|done].
Qed.

Lemma mapE_inr {A B} (f : A → exc + B) l :
  (∀ x, x ∈ l → ∃ y, f x = inr y) → ∃ m, mapE f l = inr m.
Proof.
  induction l as [|x l IH]; simpl; [eauto|]. intros H.
  destruct (H x) as [y ->]; [left|].
  destruct IH as [ys ->]; [intros x' Hx'; apply H; by right|]. eauto.
Qed.

Section MergeFurther.

Variable float_of_str : string → option float.

Lemma cell_to_float_inl c e :
  cell_to_float float_of_str c = inl e →
  e = ValueError ∧ ∃ s, c = Str s ∧ float_of_str s = None.
Proof.
  destruct c as [| |s|]; simpl; try (intros H; discriminate H).
  destruct (float_of_str s) eqn:Hs; [intros H; discriminate H|].
  intros [= <-]. eauto.
Qed.

(** The column that line 38 assigns, from the two converted sources. *)
Lemma merge_braak_stages_present df x6 x3 :
  columns df !! "Braak06" = Some x6 →
  columns df !! "Braak03" = Some x3 →
  merge_braak_stages float_of_str df
  = match astype_float32 float_of_str (map (replace_cell unknown_to_nan) x6)
    with
    | inl e => (inl e, df)
    | inr c =>
        match astype_float32 float_of_str
                (map (replace_cell unknown_to_nan) x3) with
        | inl e => (inl e, df)
        | inr f =>
            (inr (),
             assign "BraakMrg"
               (cell_of_float <$>
                  (nanmean <$>
                     stack2
                       (fmap (M := option) (λ q, Qc_ceil (q * q_half)) <$> c)
                       f)) df)
        end
    end.
Proof.
  intros H6 H3. unfold merge_braak_stages, mbind, M_bind, get_frame, lift.
  rewrite (has_column_true _ _ _ H6), (has_column_true _ _ _ H3).
  cbn [andb]. rewrite (getitem_Some _ _ _ H6).
  destruct (astype_float32 _ (map _ x6)) as [e|v6]; [done|].
  rewrite (getitem_Some _ _ _ H3).
  by destruct (astype_float32 _ (map _ x3)) as [e|v3].
Qed.

Lemma merge_braak_stages_cases df :
  merge_braak_stages float_of_str df = (inr (), df)
  ∨ (∃ e, merge_braak_stages float_of_str df = (inl e, df))
  ∨ (∃ mrg, merge_braak_stages float_of_str df
            = (inr (), assign "BraakMrg" mrg df)).
Proof.
  destruct (columns df !! "Braak06") as [x6|] eqn:H6;
    [|left; apply merge_braak_stages_absent; auto].
  destruct (columns df !! "Braak03") as [x3|] eqn:H3;
    [|left; apply merge_braak_stages_absent; auto].
  right. rewrite (merge_braak_stages_present _ _ _ H6 H3).
  destruct (astype_float32 _ (map _ x6)); [eauto|].
  destruct (astype_float32 _ (map _ x3)); eauto.
Qed.

(** X5: whatever the outcome, the reconciler keeps the number of rows and
    every column other than the merged one. *)
Theorem merge_braak_stages_other_columns (df : DataFrame) (c : string) :
  c ≠ "BraakMrg" →
  nrows (merge_braak_stages float_of_str df).2 = nrows df
  ∧ columns (merge_braak_stages float_of_str df).2 !! c = columns df !! c.
Proof.
  intros Hc.
  destruct (merge_braak_stages_cases df) as [->|[[e ->]|[mrg ->]]];
    cbn [snd]; try done.
  split; [done|]. by rewrite columns_assign_ne.
Qed.

(** X6: with both staging columns in the table, the reconciler raises
    exactly when one of them holds a text other than 'Unknown' that
    [float] rejects; the exception is a [ValueError] and the table is left
    without any change. *)
Theorem merge_braak_stages_raises_iff (df : DataFrame) (x6 x3 : Series) :
  columns df !! "Braak06" = Some x6 →
  columns df !! "Braak03" = Some x3 →
  ((∃ e df', merge_braak_stages float_of_str df = (inl e, df'))
   ↔ ∃ s, (Str s ∈ x6 ∨ Str s ∈ x3) ∧ s ≠ "Unknown"
          ∧ float_of_str s = None)
  ∧ ∀ e df', merge_braak_stages float_of_str df = (inl e, df') →
             e = ValueError ∧ df' = df.
Proof.
  intros H6 H3. rewrite (merge_braak_stages_present _ _ _ H6 H3).
  assert (∀ x e,
    astype_float32 float_of_str (map (replace_cell unknown_to_nan) x) = inl e →
    e = ValueError
    ∧ ∃ s, Str s ∈ x ∧ s ≠ "Unknown" ∧ float_of_str s = None) as Hfail.
  { intros x e He. apply mapE_inl in He as (c & Hin & Hc).
    apply cell_to_float_inl in Hc as (-> & s & -> & Hs). split; [done|].
    apply list_elem_of_fmap in Hin as (c0 & Hc0 & Hin).
    destruct c0 as [| |s0|]; try discriminate Hc0.
    simpl in Hc0. case_bool_decide; [discriminate Hc0|].
    simpl in Hc0. injection Hc0 as <-. exists s. split; [done|].
    split; [congruence|done]. }
  assert (∀ x s,
    Str s ∈ x → s ≠ "Unknown" → float_of_str s = None →
    ∃ e, astype_float32 float_of_str
           (map (replace_cell unknown_to_nan) x) = inl e) as Hraise.
  { intros x s Hin Hne Hs.
    destruct (astype_float32 _ _) as [e|m] eqn:Hm; [eauto|].
    apply mapE_Forall2 in Hm.
    assert (Str s ∈ map (replace_cell unknown_to_nan) x) as Hin'.
    { apply list_elem_of_fmap. exists (Str s). split; [|done].
      simpl. by rewrite bool_decide_eq_false_2 by congruence. }
    apply list_elem_of_lookup in Hin' as [i Hi].
    destruct (Forall2_lookup_l _ _ _ _ _ Hm Hi) as (y & _ & Hy).
    simpl in Hy. rewrite Hs in Hy. discriminate Hy. }
  split.
  - split.
    + intros (e & df' & Hrun).
      destruct (astype_float32 _ (map _ x6)) as [e6|c] eqn:E6.
      { destruct (Hfail _ _ E6) as (_ & s & ? & ? & ?). exists s. auto. }
      destruct (astype_float32 _ (map _ x3)) as [e3|f] eqn:E3;
        [|discriminate Hrun].
      destruct (Hfail _ _ E3) as (_ & s & ? & ? & ?). exists s. auto.
    + intros (s & [Hin|Hin] & Hne & Hs).
      * destruct (Hraise _ _ Hin Hne Hs) as [e ->]. eauto.
      * destruct (astype_float32 _ (map _ x6)); [eauto|].
        destruct (Hraise _ _ Hin Hne Hs) as [e ->]. eauto.
  - intros e df' Hrun.
    destruct (astype_float32 _ (map _ x6)) as [e6|c] eqn:E6.
    { injection Hrun as <- <-. by destruct (Hfail _ _ E6) as [-> _]. }
    destruct (astype_float32 _ (map _ x3)) as [e3|f] eqn:E3;
      [|discriminate Hrun].
    injection Hrun as <- <-. by destruct (Hfail _ _ E3) as [-> _].
Qed.

(** X7: running the reconciler again on its own result gives the same
    outcome and the same table. *)
Theorem merge_braak_stages_idempotent (df : DataFrame) :
  merge_braak_stages float_of_str (merge_braak_stages float_of_str df).2
  = merge_braak_stages float_of_str df.
Proof.
  destruct (columns df !! "Braak06") as [x6|] eqn:H6;
    [|rewrite (merge_braak_stages_absent _ df) by auto;
      by rewrite merge_braak_stages_absent by auto].
  destruct (columns df !! "Braak03") as [x3|] eqn:H3;
    [|rewrite (merge_braak_stages_absent _ df) by auto;
      by rewrite merge_braak_stages_absent by auto].
  rewrite (merge_braak_stages_present df _ _ H6 H3).
  destruct (astype_float32 _ (map _ x6)) as [e|c] eqn:E6.
  { cbn [snd]. by rewrite (merge_braak_stages_present df _ _ H6 H3), E6. }
  destruct (astype_float32 _ (map _ x3)) as [e|f] eqn:E3.
  { cbn [snd]. by rewrite (merge_braak_stages_present df _ _ H6 H3), E6, E3. }
  cbn [snd].
  rewrite (merge_braak_stages_present _ x6 x3)
    by (by rewrite columns_assign_ne).
  by rewrite E6, E3, assign_assign.
Qed.

Lemma semiq_lookup_other df col :
  col ∉ cols_semiq →
  columns (semiq_scores_to_numeric df) !! col = columns df !! col.
Proof.
  intros Hcol. unfold semiq_scores_to_numeric.
  rewrite replace_nested_lookup, const_dict_lookup_None by done.
  by destruct (columns df !! col).
Qed.

Lemma semiq_assign_other c s df :
  c ∉ cols_semiq →
  semiq_scores_to_numeric (assign c s df)
  = assign c s (semiq_scores_to_numeric df).
Proof.
  intros Hc. apply DataFrame_eq; [reflexivity|]. intros col.
  destruct (decide (c = col)) as [<-|Hne].
  - by rewrite semiq_lookup_other, !columns_assign_eq.
  - rewrite columns_assign_ne by done.
    unfold semiq_scores_to_numeric. rewrite !replace_nested_lookup.
    by rewrite columns_assign_ne.
Qed.

Lemma staging_columns_not_semiq :
  ("Braak06" ∉ cols_semiq) ∧ ("Braak03" ∉ cols_semiq)
  ∧ ("BraakMrg" ∉ cols_semiq).
Proof. repeat split; apply (bool_decide_unpack _); by vm_compute. Qed.

(** X8: recoding and reconciling commute: reconciling the recoded table
    has the outcome of reconciling the table itself and gives the recoded
    form of its result. *)
Theorem merge_braak_stages_after_recoding (df : DataFrame) :
  merge_braak_stages float_of_str (semiq_scores_to_numeric df)
  = ((merge_braak_stages float_of_str df).1,
     semiq_scores_to_numeric (merge_braak_stages float_of_str df).2).
Proof.
  destruct staging_columns_not_semiq as (N6 & N3 & Nm).
  pose proof (semiq_lookup_other df _ N6) as L6.
  pose proof (semiq_lookup_other df _ N3) as L3.
  destruct (columns df !! "Braak06") as [x6|] eqn:H6;
    [|rewrite (merge_braak_stages_absent _ df),
        (merge_braak_stages_absent _ (semiq_scores_to_numeric df)) by auto;
      done].
  destruct (columns df !! "Braak03") as [x3|] eqn:H3;
    [|rewrite (merge_braak_stages_absent _ df),
        (merge_braak_stages_absent _ (semiq_scores_to_numeric df)) by auto;
      done].
  rewrite (merge_braak_stages_present _ _ _ L6 L3),
    (merge_braak_stages_present _ _ _ H6 H3).
  destruct (astype_float32 _ (map _ x6)) as [e|c]; [done|].
  destruct (astype_float32 _ (map _ x3)) as [e|f]; [done|].
  cbn [fst snd]. by rewrite semiq_assign_other.
Qed.

(** X9: the outcome of the cleaning pipeline is decided by the reconciler
    on the table as given: the pipeline raises exactly the exception that
    reconciling the unrecoded table raises, and otherwise ends normally. *)
Theorem clean_cndr_dataset_outcome (df : DataFrame) :
  clean_cndr_dataset float_of_str df
  = match (merge_braak_stages float_of_str df).1 with
    | inl e => inl e
    | inr _ => inr PyNone
    end.
Proof.
  unfold clean_cndr_dataset.
  destruct staging_columns_not_semiq as (N6 & N3 & Nm).
  pose proof (semiq_lookup_other df _ N6) as L6.
  pose proof (semiq_lookup_other df _ N3) as L3.
  destruct (columns df !! "Braak06") as [x6|] eqn:H6;
    [|rewrite (merge_braak_stages_absent _ df),
        (merge_braak_stages_absent _ (semiq_scores_to_numeric df)) by auto;
      done].
  destruct (columns df !! "Braak03") as [x3|] eqn:H3;
    [|rewrite (merge_braak_stages_absent _ df),
        (merge_braak_stages_absent _ (semiq_scores_to_numeric df)) by auto;
      done].
  rewrite (merge_braak_stages_present _ _ _ L6 L3),
    (merge_braak_stages_present _ _ _ H6 H3).
  destruct (astype_float32 _ (map _ x6)) as [e|c]; [done|].
  by destruct (astype_float32 _ (map _ x3)) as [e|f].
Qed.

End MergeFurther.

(** ** The range of the merged stage *)

Lemma Qc_ceil_half_bounds (a : Qc) :
  (0 ≤ a)%Qc → (a ≤ Qc_of_Z 6)%Qc →
  (0 ≤ Qc_ceil (a * q_half))%Qc ∧ (Qc_ceil (a * q_half) ≤ q_three)%Qc.
Proof.
  unfold Qcle, Qc_ceil, q_three, q_half, Qc_of_Z, Qcmult, Q2Qc.
  cbn [this]. rewrite !Qred_correct. intros H0 H6.
  split.
  - apply Qle_trans with (a * (1 # 2))%Q; [|apply Qle_ceiling].
    change (inject_Z 0) with 0%Q in *. lra.
  - rewrite <- Zle_Qle. rewrite <- (Qceiling_Z 3).
    apply Qceiling_resp_le. change (inject_Z 6) with 6%Q in H6.
    change (inject_Z 3) with 3%Q. lra.
Qed.

Lemma Qc_mean_bounds (x b : Qc) :
  (0 ≤ x)%Qc → (x ≤ q_three)%Qc → (0 ≤ b)%Qc → (b ≤ q_three)%Qc →
  (0 ≤ (x + b) / q_two)%Qc ∧ ((x + b) / q_two ≤ q_three)%Qc.
Proof.
  unfold Qcle, q_three, q_two, Qc_of_Z, Qcdiv, Qcmult, Qcplus, Qcinv, Q2Qc.
  cbn [this]. rewrite !Qred_correct.
  change (inject_Z 3) with 3%Q. change (inject_Z 2) with 2%Q.
  change (inject_Z 0) with 0%Q. intros. split.
  - apply Qle_shift_div_l; lra.
  - apply Qle_shift_div_r; lra.
Qed.

Section MergeRange.

Variable float_of_str : string → option float.

Lemma merge_braak_stages_row df df' x6 x3 i c6 c3 coarse fine :
  columns df !! "Braak06" = Some x6 →
  columns df !! "Braak03" = Some x3 →
  merge_braak_stages float_of_str df = (inr (), df') →
  x6 !! i = Some c6 → x3 !! i = Some c3 →
  cell_to_float float_of_str (replace_cell unknown_to_nan c6) = inr coarse →
  cell_to_float float_of_str (replace_cell unknown_to_nan c3) = inr fine →
  columns df' !! "BraakMrg" ≫= (.!! i)
  = Some match coarse, fine with
         | None, None => NaN
         | Some a, None => Num (Qc_ceil (a * q_half))
         | None, Some b => Num b
         | Some a, Some b => Num ((Qc_ceil (a * q_half) + b) / q_two)
         end.
Proof.
  intros H6 H3 Hrun Hc6 Hc3 Hcoarse Hfine.
  rewrite (merge_braak_stages_present _ _ _ _ H6 H3) in Hrun.
  destruct (astype_float32 _ (map _ x6)) as [e|v6] eqn:Hv6;
    [discriminate Hrun|].
  destruct (astype_float32 _ (map _ x3)) as [e|v3] eqn:Hv3;
    [discriminate Hrun|].
  injection Hrun as <-. rewrite columns_assign_eq. cbn [mbind option_bind].
  destruct (mapE_lookup _ _ _ i (replace_cell unknown_to_nan c6) Hv6)
    as (coarse' & Hcoarse' & Hf6); [by rewrite list_lookup_fmap, Hc6|].
  destruct (mapE_lookup _ _ _ i (replace_cell unknown_to_nan c3) Hv3)
    as (fine' & Hfine' & Hf3); [by rewrite list_lookup_fmap, Hc3|].
  rewrite Hcoarse in Hf6. rewrite Hfine in Hf3. simplify_eq. unfold stack2.
  rewrite !list_lookup_fmap, lookup_zip_with, list_lookup_fmap.
  rewrite Hcoarse', Hfine'.
  cbn [fmap option_fmap option_map mbind option_bind].
  rewrite nanmean_pair. by destruct coarse', fine'.
Qed.

(** X10: when the coarse stage of a record lies in 0..6 and its fine stage
    in 0..3, and at least one of them is present, the merged stage is a
    number in 0..3. *)
Theorem merge_braak_stages_range (df df' : DataFrame) (x6 x3 : Series)
    (i : nat) (c6 c3 : cell) (coarse fine : float) :
  columns df !! "Braak06" = Some x6 →
  columns df !! "Braak03" = Some x3 →
  merge_braak_stages float_of_str df = (inr (), df') →
  x6 !! i = Some c6 → x3 !! i = Some c3 →
  cell_to_float float_of_str (replace_cell [("Unknown", NaN)] c6)
    = inr coarse →
  cell_to_float float_of_str (replace_cell [("Unknown", NaN)] c3)
    = inr fine →
  (∀ a, coarse = Some a → (0 ≤ a)%Qc ∧ (a ≤ Qc_of_Z 6)%Qc) →
  (∀ b, fine = Some b → (0 ≤ b)%Qc ∧ (b ≤ q_three)%Qc) →
  is_Some coarse ∨ is_Some fine →
  ∃ m, columns df' !! "BraakMrg" ≫= (.!! i) = Some (Num m)
       ∧ (0 ≤ m)%Qc ∧ (m ≤ q_three)%Qc.
Proof.
  intros H6 H3 Hrun Hc6 Hc3 Hcoarse Hfine Ba Bb Hsome.
  rewrite (merge_braak_stages_row _ _ _ _ _ _ _ _ _
             H6 H3 Hrun Hc6 Hc3 Hcoarse Hfine).
  destruct coarse as [a|], fine as [b|].
  - destruct (Ba a eq_refl) as [A0 A6]. destruct (Bb b eq_refl) as [B0 B3].
    destruct (Qc_ceil_half_bounds a A0 A6) as [C0 C3].
    eexists. split; [reflexivity|]. by apply Qc_mean_bounds.
  - destruct (Ba a eq_refl) as [A0 A6].
    eexists. split; [reflexivity|]. by apply Qc_ceil_half_bounds.
  - eexists. split; [reflexivity|]. by apply Bb.
  - destruct Hsome as [[? H]|[? H]]; discriminate H.
Qed.

End MergeRange.

Lemma merge_braak_stages_other_columns_witness :
  columns (merge_braak_stages decimal_float_of_str staged_texts).2 !! "Braak06"
  = Some [Str "4"; Str "Unknown"; Str "5"; NaN].
Proof.
  destruct (merge_braak_stages_other_columns decimal_float_of_str
              staged_texts "Braak06") as [_ ->].
  - intros H. discriminate H.
  - vm_compute. reflexivity.
Defined.

Lemma merge_braak_stages_raises_iff_witness :
  merge_braak_stages decimal_float_of_str staged_roman
  = (inl ValueError, staged_roman).
Proof.
  destruct (merge_braak_stages_raises_iff decimal_float_of_str staged_roman
              [Str "IV"; Num q_two] [Num 1; NaN]) as [[_ Hif] Honly].
  - vm_compute. reflexivity.
  - vm_compute. reflexivity.
  - destruct Hif as (e & df' & Hrun).
    + exists "IV". split; [left; left|]. split; [|reflexivity].
      intros H. discriminate H.
    + rewrite Hrun. by destruct (Honly e df' Hrun) as [-> ->].
Defined.

Lemma merge_braak_stages_range_witness :
  ∃ m, columns (merge_braak_stages decimal_float_of_str staged_texts).2
         !! "BraakMrg" ≫= (.!! 2%nat) = Some (Num m)
       ∧ (0 ≤ m)%Qc ∧ (m ≤ q_three)%Qc.
Proof.
  apply (merge_braak_stages_range decimal_float_of_str staged_texts
           (merge_braak_stages decimal_float_of_str staged_texts).2
           [Str "4"; Str "Unknown"; Str "5"; NaN]
           [NaN; Num 1; Str "3"; Str "Unknown"]
           2 (Str "5") (Str "3") (Some (Qc_of_Z 5)) (Some (Qc_of_Z 3))).
  - vm_compute. reflexivity.
  - vm_compute. reflexivity.
  - vm_compute. reflexivity.
  - reflexivity.
  - reflexivity.
  - vm_compute. reflexivity.
  - vm_compute. reflexivity.
  - intros a [= <-]. split; by vm_compute.
  - intros b [= <-]. split; by vm_compute.
  - left. eauto.
Defined.

(** ** The flags of a record *)

Lemma slots_at_cells df i slots :
  slots_at df i = Some slots → ∃ c1 c2 c3 c4, slots = [c1; c2; c3; c4].
Proof.
  intros H. apply slots_at_Some in H
    as (? & ? & ? & ? & c1 & c2 & c3 & c4 & _ & _ & _ & _ & _ & _ & _ & _ & ->).
  eauto.
Qed.

Lemma flags_row df df' i c1 c2 c3 c4 :
  add_diagnostic_categories df = (inr (), df') →
  (i < nrows df)%nat →
  slots_at df i = Some [c1; c2; c3; c4] →
  let ad := existsb (cell_eq_str ad_label) [c1; c2; c3; c4] in
  let ftld := existsb (cell_isin nadt_ftld_labels) [c1; c2; c3; c4] in
  let late := existsb (cell_eq_str late_label) [c1; c2; c3; c4] in
  let first := cell_isin nadt_labels c1 in
  columns df' !! "is_any_diag_ad" ≫= (.!! i) = Some (Num (Qc_of_bool ad))
  ∧ columns df' !! "is_any_diag_nadt_ftld" ≫= (.!! i)
    = Some (Num (Qc_of_bool ftld))
  ∧ columns df' !! "is_any_diag_late" ≫= (.!! i)
    = Some (Num (Qc_of_bool late))
  ∧ columns df' !! "is_robin_eligible" ≫= (.!! i)
    = Some (Num (Qc_of_bool (ad && negb first)))
  ∧ columns df' !! "is_clean_ad" ≫= (.!! i)
    = Some (Num (Qc_of_bool (ad && negb ftld)))
  ∧ columns df' !! "is_clean_ad_cont" ≫= (.!! i)
    = Some (Num (Qc_of_bool (negb ftld)))
  ∧ columns df' !! "is_clean_late_ad" ≫= (.!! i)
    = Some (Bool (ad && negb ftld && late))
  ∧ columns df' !! "is_clean_late_ad_cont" ≫= (.!! i)
    = Some (Bool (negb ftld && late)).
Proof.
  intros Hrun Hi Hslots.
  apply add_diagnostic_categories_inv in Hrun
    as (x1 & x2 & x3 & x4 & df1 & df2 & H1 & H2 & H3 & H4 & Hrun).
  cbv zeta in Hrun. destruct Hrun as (_ & _ & ->).
  apply slots_at_Some in Hslots
    as (y1 & y2 & y3 & y4 & d1 & d2 & d3 & d4 & ? & ? & ? & ?
        & Hd1 & Hd2 & Hd3 & Hd4 & Heq).
  simplify_eq.
  pose proof (any_axis1_lookup (cell_eq_str ad_label) _ _ _ _ _ _ _ _ _ _
                Hi Hd1 Hd2 Hd3 Hd4) as Had.
  pose proof (any_axis1_lookup (cell_isin nadt_ftld_labels) _ _ _ _ _ _ _ _ _ _
                Hi Hd1 Hd2 Hd3 Hd4) as Hftld.
  pose proof (any_axis1_lookup (cell_eq_str late_label) _ _ _ _ _ _ _ _ _ _
                Hi Hd1 Hd2 Hd3 Hd4) as Hlate.
  assert (is_first_diag_nadt x1 !! i = Some (cell_isin nadt_labels d1))
    as Hfirst.
  { unfold is_first_diag_nadt, isin. by rewrite list_lookup_fmap, Hd1. }
  change (map (map (cell_eq_str ad_label)) [x1; x2; x3; x4])
    with (frame_eq_str [x1; x2; x3; x4] ad_label) in Had.
  change (map (map (cell_isin nadt_ftld_labels)) [x1; x2; x3; x4])
    with (frame_isin [x1; x2; x3; x4] nadt_ftld_labels) in Hftld.
  change (map (map (cell_eq_str late_label)) [x1; x2; x3; x4])
    with (frame_eq_str [x1; x2; x3; x4] late_label) in Hlate.
  cbn [existsb]. rewrite !orb_false_r, !orb_assoc.
  rewrite !columns_assign_ne by done.
  repeat (rewrite ?columns_assign_eq; rewrite ?columns_assign_ne by done;
          split; [|]);
    rewrite ?columns_assign_eq; cbn [mbind option_bind];
    unfold replace_bool_int, series_and, series_neg;
    rewrite ?list_lookup_fmap, ?lookup_zip_with, ?list_lookup_fmap,
      ?Had, ?Hftld, ?Hlate, ?Hfirst; reflexivity.
Qed.

Lemma existsb_isin labels (slots : list cell) :
  existsb (cell_isin labels) slots = true
  ↔ ∃ l, l ∈ labels ∧ Str l ∈ slots.
Proof.
  rewrite existsb_exists. split.
  - intros (c & Hin & Hc). apply list_elem_of_In in Hin.
    destruct c as [| |s|]; simpl in Hc; try done.
    apply bool_decide_eq_true in Hc. eauto.
  - intros (l & Hl & Hin). exists (Str l).
    split; [by apply list_elem_of_In|]. simpl. by apply bool_decide_eq_true.
Qed.

Lemma Num_Qc_of_bool_1 b : Num (Qc_of_bool b) = Num 1 ↔ b = true.
Proof.
  destruct b; simpl; split; done.
Qed.

(** X11: for a record of a table on which the call succeeds, each of the
    three presence flags is 0 or 1, and it is 1 exactly when one of the
    four diagnosis slots holds the AD label, one of the thirteen non-AD
    tauopathy and FTLD labels, or the LATE label. *)
Theorem presence_flags_of_record (df df' : DataFrame) (i : nat)
    (slots : list cell) :
  add_diagnostic_categories df = (inr (), df') →
  (i < nrows df)%nat →
  slots_at df i = Some slots →
  ∃ ad ftld late : bool,
    columns df' !! "is_any_diag_ad" ≫= (.!! i) = Some (Num (Qc_of_bool ad))
    ∧ columns df' !! "is_any_diag_nadt_ftld" ≫= (.!! i)
      = Some (Num (Qc_of_bool ftld))
    ∧ columns df' !! "is_any_diag_late" ≫= (.!! i)
      = Some (Num (Qc_of_bool late))
    ∧ (ad = true ↔ Str "Alzheimer's disease" ∈ slots)
    ∧ (ftld = true ↔ ∃ l, l ∈ nadt_ftld_labels ∧ Str l ∈ slots)
    ∧ (late = true
       ↔ Str "Limbic-predominant Age-related TDP-43 Encephalopathy (Also known as LATE)"
         ∈ slots).
Proof.
  intros Hrun Hi Hslots.
  destruct (slots_at_cells _ _ _ Hslots) as (c1 & c2 & c3 & c4 & ->).
  destruct (flags_row _ _ _ _ _ _ _ Hrun Hi Hslots)
    as (Had & Hftld & Hlate & _).
  eexists _, _, _. split; [exact Had|]. split; [exact Hftld|].
  split; [exact Hlate|]. split; [apply existsb_eq_str|].
  split; [apply existsb_isin|apply existsb_eq_str].
Qed.

Lemma presence_flags_of_record_witness :
  columns (add_diagnostic_categories cohort).2 !! "is_any_diag_nadt_ftld"
    ≫= (.!! 0%nat) = Some (Num 1).
Proof.
  destruct (presence_flags_of_record cohort
              (add_diagnostic_categories cohort).2 0
              [Str ad_label; Str "Other"; NaN; NaN])
    as (ad & ftld & late & _ & Hftld & _ & _ & Hiff & _).
  - vm_compute. reflexivity.
  - vm_compute. lia.
  - vm_compute. reflexivity.
  - rewrite Hftld. f_equal. apply Num_Qc_of_bool_1, Hiff.
    exists "Other". split; [|right; left].
    apply (bool_decide_unpack _). by vm_compute.
Defined.

(** X12: for such a record the composite flags are: Robin-eligible exactly
    when a slot holds the AD label and slot 1 holds none of the six labels;
    clean AD exactly when a slot holds the AD label and no slot holds one
    of the thirteen labels; on the clean AD continuum exactly when no slot
    holds one of the thirteen labels; and the two LATE variants add that a
    slot holds the LATE label.  The first three are stored as 0 or 1, the
    LATE variants as booleans. *)
Theorem composite_flags_of_record (df df' : DataFrame) (i : nat)
    (c1 c2 c3 c4 : cell) :
  add_diagnostic_categories df = (inr (), df') →
  (i < nrows df)%nat →
  slots_at df i = Some [c1; c2; c3; c4] →
  ∃ robin clean cont late_ad late_cont : bool,
    columns df' !! "is_robin_eligible" ≫= (.!! i)
      = Some (Num (Qc_of_bool robin))
    ∧ columns df' !! "is_clean_ad" ≫= (.!! i) = Some (Num (Qc_of_bool clean))
    ∧ columns df' !! "is_clean_ad_cont" ≫= (.!! i)
      = Some (Num (Qc_of_bool cont))
    ∧ columns df' !! "is_clean_late_ad" ≫= (.!! i) = Some (Bool late_ad)
    ∧ columns df' !! "is_clean_late_ad_cont" ≫= (.!! i)
      = Some (Bool late_cont)
    ∧ (robin = true
       ↔ Str ad_label ∈ [c1; c2; c3; c4]
         ∧ ∀ l, l ∈ nadt_labels → c1 ≠ Str l)
    ∧ (clean = true
       ↔ Str ad_label ∈ [c1; c2; c3; c4]
         ∧ ∀ l, l ∈ nadt_ftld_labels → Str l ∉ [c1; c2; c3; c4])
    ∧ (cont = true ↔ ∀ l, l ∈ nadt_ftld_labels → Str l ∉ [c1; c2; c3; c4])
    ∧ (late_ad = true ↔ clean = true ∧ Str late_label ∈ [c1; c2; c3; c4])
    ∧ (late_cont = true ↔ cont = true ∧ Str late_label ∈ [c1; c2; c3; c4]).
Proof.
  intros Hrun Hi Hslots.
  destruct (flags_row _ _ _ _ _ _ _ Hrun Hi Hslots)
    as (_ & _ & _ & Hrobin & Hclean & Hcont & Hlad & Hlcont).
  eexists _, _, _, _, _.
  split; [exact Hrobin|]. split; [exact Hclean|]. split; [exact Hcont|].
  split; [exact Hlad|]. split; [exact Hlcont|].
  assert (∀ slots : list cell,
    negb (existsb (cell_isin nadt_ftld_labels) slots) = true
    ↔ ∀ l, l ∈ nadt_ftld_labels → Str l ∉ slots) as Hneg.
  { intros slots. rewrite negb_true_iff, <- not_true_iff_false, existsb_isin.
    split; [intros H l Hl Hin; apply H; eauto|].
    intros H (l & Hl & Hin). by apply (H l). }
  assert (negb (cell_isin nadt_labels c1) = true
          ↔ ∀ l, l ∈ nadt_labels → c1 ≠ Str l) as Hfirst.
  { rewrite negb_true_iff, <- not_true_iff_false.
    destruct c1 as [| |s|]; simpl; try (split; [intros _ l _ H|]; done).
    rewrite bool_decide_eq_true. split.
    - intros H l Hl [= ->]. done.
    - intros H Hs. by apply (H s). }
  rewrite !andb_true_iff, !existsb_eq_str, !Hneg, Hfirst. tauto.
Qed.

Lemma composite_flags_of_record_witness :
  columns (add_diagnostic_categories cohort).2 !! "is_clean_late_ad"
    ≫= (.!! 2%nat) = Some (Bool true).
Proof.
  destruct (composite_flags_of_record cohort
              (add_diagnostic_categories cohort).2 2
              (Str late_label) NaN NaN (Str ad_label))
    as (robin & clean & cont & late_ad & late_cont & _ & _ & _ & Hlad & _
        & _ & Hclean & _ & Hiff & _).
  - vm_compute. reflexivity.
  - vm_compute. lia.
  - vm_compute. reflexivity.
  - rewrite Hlad. do 2 f_equal. apply Hiff. split; [|left].
    apply Hclean. split; [do 3 right; left|].
    intros l Hl Hin. revert Hl Hin. unfold nadt_ftld_labels, late_label, ad_label.
    rewrite !elem_of_cons, !elem_of_nil.
    intros Hl Hin. intuition (subst; discriminate).
Defined.

(** X13: for every row of the flag columns, clean AD implies the AD flag
    and the clean AD continuum, and the clean LATE-AD flag implies clean
    AD, the LATE flag and the clean LATE-AD continuum flag. *)
Theorem flag_implications (df df' : DataFrame) (i : nat) :
  add_diagnostic_categories df = (inr (), df') →
  (columns df' !! "is_clean_ad" ≫= (.!! i) = Some (Num 1) →
   columns df' !! "is_any_diag_ad" ≫= (.!! i) = Some (Num 1)
   ∧ columns df' !! "is_clean_ad_cont" ≫= (.!! i) = Some (Num 1))
  ∧ (columns df' !! "is_clean_late_ad" ≫= (.!! i) = Some (Bool true) →
     columns df' !! "is_clean_ad" ≫= (.!! i) = Some (Num 1)
     ∧ columns df' !! "is_any_diag_late" ≫= (.!! i) = Some (Num 1)
     ∧ columns df' !! "is_clean_late_ad_cont" ≫= (.!! i) = Some (Bool true)).
Proof.
  intros Hrun.
  apply add_diagnostic_categories_inv in Hrun
    as (x1 & x2 & x3 & x4 & df1 & df2 & H1 & H2 & H3 & H4 & Hrun).
  cbv zeta in Hrun. destruct Hrun as (_ & _ & ->).
  repeat (rewrite ?columns_assign_eq; rewrite ?columns_assign_ne by done).
  cbn [mbind option_bind].
  rewrite !replace_bool_int_lookup_1.
  unfold series_and, series_neg.
  rewrite !list_lookup_fmap, !lookup_zip_with, !list_lookup_fmap.
  destruct (any_axis1 _ (frame_eq_str _ ad_label) !! i) as [[]|];
    destruct (any_axis1 _ (frame_isin _ _) !! i) as [[]|];
    destruct (any_axis1 _ (frame_eq_str _ late_label) !! i) as [[]|];
    cbn; split; intros H; try discriminate H; done.
Qed.

Lemma flag_implications_witness :
  columns (add_diagnostic_categories cohort).2 !! "is_clean_late_ad_cont"
    ≫= (.!! 2%nat) = Some (Bool true).
Proof.
  destruct (flag_implications cohort (add_diagnostic_categories cohort).2 2)
    as [_ H].
  - vm_compute. reflexivity.
  - apply H. vm_compute. reflexivity.
Defined.

(** ** What the call leaves alone *)

(** X14: a successful call keeps the number of rows and every column
    other than the ten it writes. *)
Theorem add_diagnostic_categories_other_columns
    (df df' : DataFrame) (c : string) :
  add_diagnostic_categories df = (inr (), df') →
  c ∉ [ "ADNC_severity"; "LATE_stage"; "is_any_diag_ad";
        "is_any_diag_nadt_ftld"; "is_any_diag_late"; "is_robin_eligible";
        "is_clean_ad"; "is_clean_ad_cont"; "is_clean_late_ad";
        "is_clean_late_ad_cont" ] →
  nrows df' = nrows df ∧ columns df' !! c = columns df !! c.
Proof.
  intros Hrun Hc.
  apply add_diagnostic_categories_inv in Hrun
    as (x1 & x2 & x3 & x4 & df1 & df2 & _ & _ & _ & _ & Hrun).
  cbv zeta in Hrun. destruct Hrun as (Hadnc & Hlate & ->).
  rewrite !elem_of_cons, elem_of_nil in Hc.
  assert (nrows df1 = nrows df ∧ columns df1 !! c = columns df !! c)
    as [Hn1 Hc1].
  { apply adnc_block_frame in Hadnc as [->|[sev ->]]; [done|].
    split; [done|]. apply columns_assign_ne. intros <-. tauto. }
  assert (nrows df2 = nrows df1 ∧ columns df2 !! c = columns df1 !! c)
    as [Hn2 Hc2].
  { apply late_block_frame in Hlate as [->|[stage ->]]; [done|].
    split; [done|]. apply columns_assign_ne. intros <-. tauto. }
  split; [cbn; congruence|].
  rewrite !columns_assign_ne by (intros <-; tauto). congruence.
Qed.

Lemma add_diagnostic_categories_other_columns_witness :
  columns (add_diagnostic_categories cohort).2 !! "NPDx2"
  = Some [Str "Other"; NaN; NaN].
Proof.
  destruct (add_diagnostic_categories_other_columns cohort
              (add_diagnostic_categories cohort).2 "NPDx2") as [_ ->].
  - vm_compute. reflexivity.
  - apply (bool_decide_unpack _). by vm_compute.
  - vm_compute. reflexivity.
Defined.

(** X15: when one of the columns ABeta, BraakMrg and CERAD is absent, a
    successful call leaves the severity column as it found it: absent if
    it was absent. *)
Theorem adnc_severity_skipped (df df' : DataFrame) :
  add_diagnostic_categories df = (inr (), df') →
  columns df !! "ABeta" = None ∨ columns df !! "BraakMrg" = None
  ∨ columns df !! "CERAD" = None →
  columns df' !! "ADNC_severity" = columns df !! "ADNC_severity".
Proof.
  intros Hrun Habs.
  apply add_diagnostic_categories_inv in Hrun
    as (x1 & x2 & x3 & x4 & df1 & df2 & _ & _ & _ & _ & Hrun).
  cbv zeta in Hrun. destruct Hrun as (Hadnc & Hlate & ->).
  rewrite adnc_block_absent in Hadnc by done. injection Hadnc as <-.
  rewrite !columns_assign_ne by done.
  apply late_block_frame in Hlate as [->|[stage ->]]; [done|].
  by rewrite columns_assign_ne.
Qed.

Lemma adnc_severity_skipped_witness :
  columns (add_diagnostic_categories late_negative_scores).2
    !! "ADNC_severity" = None.
Proof.
  rewrite (adnc_severity_skipped late_negative_scores
             (add_diagnostic_categories late_negative_scores).2).
  - vm_compute. reflexivity.
  - vm_compute. reflexivity.
  - left. vm_compute. reflexivity.
Defined.

(** X16: when one of the columns CSTDP43, DGTDP43 and ECTDP43 is absent, a
    successful call leaves the stage column as it found it. *)
Theorem late_stage_skipped (df df' : DataFrame) :
  add_diagnostic_categories df = (inr (), df') →
  columns df !! "CSTDP43" = None ∨ columns df !! "DGTDP43" = None
  ∨ columns df !! "ECTDP43" = None →
  columns df' !! "LATE_stage" = columns df !! "LATE_stage".
Proof.
  intros Hrun Habs.
  apply add_diagnostic_categories_inv in Hrun
    as (x1 & x2 & x3 & x4 & df1 & df2 & _ & _ & _ & _ & Hrun).
  cbv zeta in Hrun. destruct Hrun as (Hadnc & Hlate & ->).
  assert (∀ c, c ≠ "ADNC_severity" → columns df1 !! c = columns df !! c)
    as Hsame.
  { intros c Hc. apply adnc_block_frame in Hadnc as [->|[sev ->]]; [done|].
    by rewrite columns_assign_ne. }
  rewrite late_block_absent in Hlate
    by (rewrite !Hsame by done; exact Habs).
  injection Hlate as <-.
  rewrite !columns_assign_ne by done. by apply Hsame.
Qed.

Lemma late_stage_skipped_witness :
  columns (add_diagnostic_categories braak_missing).2 !! "LATE_stage" = None.
Proof.
  rewrite (late_stage_skipped braak_missing
             (add_diagnostic_categories braak_missing).2).
  - vm_compute. reflexivity.
  - vm_compute. reflexivity.
  - left. vm_compute. reflexivity.
Defined.

(** ** Texts among the severity inputs *)

Lemma series_gt_inl s t e :
  series_gt s t = inl e → e = TypeError ∧ ∃ x, Str x ∈ s.
Proof.
  intros H. apply mapE_inl in H as (c & Hin & Hc).
  destruct c as [| |x|]; try discriminate Hc.
  injection Hc as <-. eauto.
Qed.

Lemma series_gt_no_text s t m x : series_gt s t = inr m → Str x ∉ s.
Proof.
  intros Hm Hin. apply list_elem_of_lookup in Hin as [i Hi].
  destruct (mapE_lookup _ _ _ _ _ Hm Hi) as (y & _ & Hy). discriminate Hy.
Qed.

(** With its three inputs in the table the block either succeeds, and then
    no input holds a text, or raises [TypeError] on a text, having written
    the severity column only. *)
Lemma adnc_block_outcome df a b c :
  columns df !! "ABeta" = Some a →
  columns df !! "BraakMrg" = Some b →
  columns df !! "CERAD" = Some c →
  (∃ sev, adnc_block df = (inr (), assign "ADNC_severity" sev df)
          ∧ ∀ x, (Str x ∉ a) ∧ (Str x ∉ b) ∧ (Str x ∉ c))
  ∨ (∃ sev, adnc_block df = (inl TypeError, assign "ADNC_severity" sev df)
            ∧ ∃ x, Str x ∈ a ∨ Str x ∈ b ∨ Str x ∈ c).
Proof.
  intros Ha Hb Hc. unfold adnc_block.
  unfold mbind, M_bind, get_frame, lift.
  rewrite (has_column_true _ _ _ Ha), (has_column_true _ _ _ Hb),
    (has_column_true _ _ _ Hc).
  cbn [andb].
  rewrite setitem_scalar_assign.
  pose proof (getitem_assign_ne "ADNC_severity" _ _ df Ha ltac:(done)) as Ga.
  pose proof (getitem_assign_ne "ADNC_severity" _ _ df Hb ltac:(done)) as Gb.
  pose proof (getitem_assign_ne "ADNC_severity" _ _ df Hc ltac:(done)) as Gc.
  repeat
    (rewrite ?loc_setitem_assign; rewrite ?Ga, ?Gb, ?Gc;
     try match goal with
       | |- context [series_gt ?s ?t] =>
           let e := fresh "e" in
           let m := fresh "m" in
           let Hm := fresh "Hm" in
           destruct (series_gt s t) as [e|m] eqn:Hm; cbv beta iota;
           [right; apply series_gt_inl in Hm as (-> & x & Hx);
            eexists; split; [reflexivity|exists x; auto]|]
       end).
  left. eexists. split; [reflexivity|]. intros x.
  repeat split;
    match goal with
    | H : series_gt ?s _ = inr _ |- Str x ∉ ?s =>
        apply (series_gt_no_text _ _ _ _ H)
    end.
Qed.

Lemma getitems_npdx_present df x1 x2 x3 x4 :
  columns df !! "NPDx1" = Some x1 → columns df !! "NPDx2" = Some x2 →
  columns df !! "NPDx3" = Some x3 → columns df !! "NPDx4" = Some x4 →
  getitems npdx df = (inr [x1; x2; x3; x4], df).
Proof.
  intros H1 H2 H3 H4. unfold getitems, npdx.
  rewrite !filter_cons, filter_nil.
  repeat (case_decide; [congruence|]).
  simpl. by rewrite H1, H2, H3, H4.
Qed.

(** X17: with the four diagnosis columns and the three severity inputs in
    the table, a text in one of the severity inputs makes the call raise
    [TypeError]; the table is then left with a severity column written and
    none of the flag columns. *)
Theorem add_diagnostic_categories_text_in_severity_input
    (df : DataFrame) (x1 x2 x3 x4 a b c : Series) (x : string) :
  columns df !! "NPDx1" = Some x1 → columns df !! "NPDx2" = Some x2 →
  columns df !! "NPDx3" = Some x3 → columns df !! "NPDx4" = Some x4 →
  columns df !! "ABeta" = Some a →
  columns df !! "BraakMrg" = Some b →
  columns df !! "CERAD" = Some c →
  Str x ∈ a ∨ Str x ∈ b ∨ Str x ∈ c →
  ∃ sev,
    add_diagnostic_categories df
    = (inl TypeError, assign "ADNC_severity" sev df).
Proof.
  intros H1 H2 H3 H4 Ha Hb Hc Htext.
  destruct (adnc_block_outcome df a b c Ha Hb Hc)
    as [(sev & _ & Hno)|(sev & Hrun & _)].
  { destruct (Hno x) as (? & ? & ?). tauto. }
  exists sev. unfold add_diagnostic_categories, mbind, M_bind, get_frame.
  pose proof (getitems_npdx_present _ _ _ _ _ H1 H2 H3 H4) as Hg.
  repeat (rewrite ?Hg, ?(getitem_Some _ _ _ H1); cbv beta iota zeta).
  by rewrite Hrun.
Qed.

Lemma add_diagnostic_categories_text_in_severity_input_witness :
  ∃ sev,
    add_diagnostic_categories abeta_text
    = (inl TypeError, assign "ADNC_severity" sev abeta_text).
Proof.
  apply (add_diagnostic_categories_text_in_severity_input abeta_text
           [Str ad_label] [NaN] [NaN] [NaN]
           [Str "Borderline"] [Num 1] [Num 1] "Borderline");
    try (vm_compute; reflexivity).
  left. left.
Defined.

(** ** The severity of a record *)

Lemma adnc_severity_row df df' a b c i ca cb cc :
  add_diagnostic_categories df = (inr (), df') →
  columns df !! "ABeta" = Some a →
  columns df !! "BraakMrg" = Some b →
  columns df !! "CERAD" = Some c →
  (i < nrows df)%nat →
  a !! i = Some ca → b !! i = Some cb → c !! i = Some cc →
  columns df' !! "ADNC_severity" ≫= (.!! i) = Some (adnc_cell ca cb cc)
  ∧ (∀ x, ca ≠ Str x) ∧ (∀ x, cb ≠ Str x) ∧ (∀ x, cc ≠ Str x).
Proof.
  intros Hrun Ha Hb Hc Hi Hai Hbi Hci.
  apply add_diagnostic_categories_inv in Hrun
    as (x1 & x2 & x3 & x4 & df1 & df2 & _ & _ & _ & _ & Hrun).
  cbv zeta in Hrun. destruct Hrun as (Hadnc & Hlate & ->).
  split.
  - destruct (adnc_block_spec _ _ _ _ _ Ha Hb Hc Hadnc)
      as (sev & -> & _ & _ & Hrow).
    rewrite !columns_assign_ne by done.
    apply late_block_frame in Hlate as [->|[stage ->]];
      rewrite ?columns_assign_ne by done; rewrite columns_assign_eq;
      cbn [mbind option_bind]; by apply Hrow.
  - destruct (adnc_block_outcome df a b c Ha Hb Hc)
      as [(sev & _ & Hno)|(sev & Hrun & _)];
      [|rewrite Hrun in Hadnc; discriminate Hadnc].
    repeat split; intros x ->; destruct (Hno x) as (Na & Nb & Nc);
      [apply Na|apply Nb|apply Nc]; apply list_elem_of_lookup; eauto.
Qed.

Lemma thresholds_ordered :
  (q_half < q_one_half)%Qc ∧ (q_one_half < q_two_half)%Qc.
Proof. split; by vm_compute. Qed.

(** X18: for a record with numeric inputs the overriding rules amount to a
    priority table: severity 3 when Braak > 2.5, amyloid > 2.5 and plaque
    density > 1.5; else 2 when Braak > 1.5 and either amyloid > 1.5, or
    amyloid > 0.5 with plaque density > 1.5; else 1 when amyloid > 0.5;
    else 0. *)
Theorem adnc_severity_priority_table (df df' : DataFrame) (a b c : Series)
    (i : nat) (ca cb cc : cell) (qa qb qc : Qc) :
  add_diagnostic_categories df = (inr (), df') →
  columns df !! "ABeta" = Some a →
  columns df !! "BraakMrg" = Some b →
  columns df !! "CERAD" = Some c →
  (i < nrows df)%nat →
  a !! i = Some ca → b !! i = Some cb → c !! i = Some cc →
  cell_number ca = Some qa → cell_number cb = Some qb →
  cell_number cc = Some qc →
  columns df' !! "ADNC_severity" ≫= (.!! i)
  = Some (Num
      (if bool_decide (q_two_half < qb ∧ q_two_half < qa ∧ q_one_half < qc)
       then q_three
       else if bool_decide
                 (q_one_half < qb
                  ∧ (q_one_half < qa ∨ (q_half < qa ∧ q_one_half < qc)))
       then q_two
       else if bool_decide (q_half < qa) then 1 else 0)).
Proof.
  intros Hrun Ha Hb Hc Hi Hai Hbi Hci Na Nb Nc.
  destruct (adnc_severity_row _ _ _ _ _ _ _ _ _ Hrun Ha Hb Hc Hi Hai Hbi Hci)
    as [-> _].
  f_equal. unfold adnc_cell.
  rewrite (cell_number_isnull _ _ Na), (cell_number_isnull _ _ Nb),
    (cell_number_isnull _ _ Nc).
  rewrite !(cell_gtb_number _ _ _ Na), !(cell_gtb_number _ _ _ Nb),
    !(cell_gtb_number _ _ _ Nc).
  repeat case_bool_decide; cbn [andb]; try reflexivity; exfalso; tauto.
Qed.

Lemma adnc_severity_priority_table_witness :
  columns (add_diagnostic_categories cohort).2 !! "ADNC_severity"
    ≫= (.!! 0%nat) = Some (Num q_three).
Proof.
  rewrite (adnc_severity_priority_table cohort
             (add_diagnostic_categories cohort).2
             [Num q_three; NaN; Num 1] [Num q_three; Num 1; Num 1]
             [Num q_two; Num 1; Num 1] 0
             (Num q_three) (Num q_three) (Num q_two) q_three q_three q_two);
    try (vm_compute; reflexivity).
  vm_compute. lia.
Defined.

(** X19: the severity of a record is missing exactly when its amyloid score
    is missing, or its amyloid score is at most 0.5 and its merged Braak
    stage or its plaque density is missing. *)
Theorem adnc_severity_missing_iff (df df' : DataFrame) (a b c : Series)
    (i : nat) (ca cb cc : cell) :
  add_diagnostic_categories df = (inr (), df') →
  columns df !! "ABeta" = Some a →
  columns df !! "BraakMrg" = Some b →
  columns df !! "CERAD" = Some c →
  (i < nrows df)%nat →
  a !! i = Some ca → b !! i = Some cb → c !! i = Some cc →
  (columns df' !! "ADNC_severity" ≫= (.!! i) = Some NaN
   ↔ ca = NaN
     ∨ ((cb = NaN ∨ cc = NaN)
        ∧ ∃ qa, cell_number ca = Some qa ∧ (qa ≤ q_half)%Qc)).
Proof.
  intros Hrun Ha Hb Hc Hi Hai Hbi Hci.
  destruct (adnc_severity_row _ _ _ _ _ _ _ _ _ Hrun Ha Hb Hc Hi Hai Hbi Hci)
    as (-> & Ta & Tb & Tc).
  destruct thresholds_ordered as [T1 T2].
  assert (ca = NaN ∨ ∃ qa, cell_number ca = Some qa) as [->|[qa Na]].
  { destruct ca as [| |x|]; simpl; eauto. by destruct (Ta x). }
  { rewrite adnc_cell_missing_abeta. split; [auto|done]. }
  assert (∀ c0, (∀ x, c0 ≠ Str x) → cell_isnull c0 = true ↔ c0 = NaN)
    as Hnull.
  { intros [| |x|] Hx; simpl; split; try done. }
  unfold adnc_cell.
  rewrite (cell_number_isnull _ _ Na), !(cell_gtb_number _ _ _ Na).
  destruct (decide (q_half < qa)%Qc) as [Hgt|Hle].
  - rewrite (bool_decide_eq_true_2 _ Hgt). split.
    + intros H. exfalso.
      repeat match type of H with
             | context [if ?x then _ else _] => destruct x
             end; simplify_eq.
    + intros [->|(_ & qa' & Hqa' & Hle)]; [discriminate Na|].
      simplify_eq. by apply Qcle_not_lt in Hle.
  - assert (bool_decide (q_half < qa) = false) as ->
      by (by apply bool_decide_eq_false_2).
    assert (bool_decide (q_one_half < qa) = false) as ->.
    { apply bool_decide_eq_false_2. intros H. apply Hle.
      by apply Qclt_trans with q_one_half. }
    assert (bool_decide (q_two_half < qa) = false) as ->.
    { apply bool_decide_eq_false_2. intros H. apply Hle.
      apply Qclt_trans with q_one_half; [done|].
      by apply Qclt_trans with q_two_half. }
    rewrite !andb_false_r. cbn [andb].
    apply Qcnot_lt_le in Hle.
    pose proof (Hnull cb Tb) as Hb'. pose proof (Hnull cc Tc) as Hc'.
    destruct (cell_isnull cb), (cell_isnull cc); split;
      try (intros _; right; split; [tauto|eauto]);
      try (intros H; discriminate H);
      try done.
    intros [->|([Hn|Hn] & _)]; [discriminate Na| |];
      [apply Hb' in Hn|apply Hc' in Hn]; discriminate Hn.
Qed.

Lemma adnc_severity_missing_iff_witness :
  columns (add_diagnostic_categories cohort).2 !! "ADNC_severity"
    ≫= (.!! 1%nat) = Some NaN.
Proof.
  apply (adnc_severity_missing_iff cohort
           (add_diagnostic_categories cohort).2
           [Num q_three; NaN; Num 1] [Num q_three; Num 1; Num 1]
           [Num q_two; Num 1; Num 1] 1 NaN (Num 1) (Num 1));
    try (vm_compute; reflexivity).
  - vm_compute. lia.
  - by left.
Defined.

(** ** The LATE stage of a record *)

Lemma late_stage_row df df' cs dg ec i slots t1 t2 t3 :
  add_diagnostic_categories df = (inr (), df') →
  columns df !! "CSTDP43" = Some cs →
  columns df !! "DGTDP43" = Some dg →
  columns df !! "ECTDP43" = Some ec →
  (i < nrows df)%nat →
  slots_at df i = Some slots →
  cs !! i = Some t1 → dg !! i = Some t2 → ec !! i = Some t3 →
  ∃ avg,
    mtl_tdp_cell t1 t2 t3 = inr avg
    ∧ columns df' !! "LATE_stage" ≫= (.!! i)
      = Some (late_stage_cell (existsb (cell_eq_str late_label) slots) avg).
Proof.
  intros Hrun Hcs Hdg Hec Hi Hslots Ht1 Ht2 Ht3.
  apply add_diagnostic_categories_inv in Hrun
    as (x1 & x2 & x3 & x4 & df1 & df2 & H1 & H2 & H3 & H4 & Hrun).
  cbv zeta in Hrun. destruct Hrun as (Hadnc & Hlate & ->).
  assert (nrows df1 = nrows df
          ∧ columns df1 !! "CSTDP43" = Some cs
          ∧ columns df1 !! "DGTDP43" = Some dg
          ∧ columns df1 !! "ECTDP43" = Some ec) as (Hn & Hcs1 & Hdg1 & Hec1).
  { apply adnc_block_frame in Hadnc as [->|[sev ->]];
      rewrite ?columns_assign_ne by done; done. }
  destruct (late_block_spec _ _ _ _ _ _ Hcs1 Hdg1 Hec1 Hlate)
    as (stage & -> & _ & _ & Hrow).
  apply slots_at_Some in Hslots
    as (y1 & y2 & y3 & y4 & d1 & d2 & d3 & d4 & ? & ? & ? & ?
        & Hd1 & Hd2 & Hd3 & Hd4 & ->).
  simplify_eq. rewrite <- Hn in Hi.
  destruct (Hrow i (existsb (cell_eq_str late_label) [d1; d2; d3; d4])
              t1 t2 t3 Hi) as (avg & Havg & Hst); try done.
  - rewrite Hn in *. unfold frame_eq_str.
    rewrite (any_axis1_lookup _ _ _ _ _ _ _ _ _ _ _ Hi Hd1 Hd2 Hd3 Hd4).
    cbn [existsb]. by rewrite orb_false_r, !orb_assoc.
  - exists avg. split; [done|].
    rewrite !columns_assign_ne by done. rewrite columns_assign_eq.
    exact Hst.
Qed.

Lemma cell_add_number a b x y :
  cell_number a = Some x → cell_number b = Some y →
  ∃ s, cell_add a b = inr s ∧ cell_number s = Some (x + y).
Proof.
  destruct a, b; simpl; intros Ha Hb; simplify_eq; eauto.
Qed.

Lemma mtl_tdp_cell_number t1 t2 t3 q1 q2 q3 :
  cell_number t1 = Some q1 → cell_number t2 = Some q2 →
  cell_number t3 = Some q3 →
  mtl_tdp_cell t1 t2 t3 = inr (Some ((q1 + q2 + q3) / q_three)).
Proof.
  intros N1 N2 N3. unfold mtl_tdp_cell.
  destruct (cell_add_number _ _ _ _ N1 N2) as (s1 & -> & Ns1).
  destruct (cell_add_number _ _ _ _ Ns1 N3) as (s2 & -> & Ns2).
  destruct s2; simpl in *; simplify_eq; congruence.
Qed.

Lemma Qc_sum3_zero (q1 q2 q3 : Qc) :
  (0 ≤ q1)%Qc → (0 ≤ q2)%Qc → (0 ≤ q3)%Qc →
  ((q1 + q2 + q3) / q_three = 0 ↔ q1 = 0 ∧ q2 = 0 ∧ q3 = 0).
Proof.
  intros H1 H2 H3. split.
  - intros H.
    assert (q1 + q2 + q3 = 0) as Hsum.
    { unfold Qcdiv in H. apply Qcmult_integral in H as [H|H]; [done|].
      exfalso. revert H. by vm_compute. }
    apply (f_equal this) in Hsum.
    unfold Qcplus, Q2Qc in Hsum. cbn [this] in Hsum.
    assert (q1 + q2 + q3 == 0)%Q as Hq.
    { transitivity (Qred (Qred (q1 + q2) + q3)).
      - by rewrite !Qred_correct.
      - by rewrite Hsum. }
    unfold Qcle in H1, H2, H3. change (this 0%Qc) with 0%Q in *.
    repeat split; apply Qc_is_canon; change (this 0%Qc) with 0%Q; lra.
  - intros (-> & -> & ->). apply Qc_is_canon. reflexivity.
Qed.

(** X20: for a record whose three regional scores are numbers that are not
    negative, the stage is 0 when no slot holds the LATE label, 2 when a
    slot holds it and a regional score is positive, and 1 when a slot holds
    it and the three scores are 0. *)
Theorem late_stage_of_record (df df' : DataFrame) (cs dg ec : Series)
    (i : nat) (slots : list cell) (t1 t2 t3 : cell) (q1 q2 q3 : Qc) :
  add_diagnostic_categories df = (inr (), df') →
  columns df !! "CSTDP43" = Some cs →
  columns df !! "DGTDP43" = Some dg →
  columns df !! "ECTDP43" = Some ec →
  (i < nrows df)%nat →
  slots_at df i = Some slots →
  cs !! i = Some t1 → dg !! i = Some t2 → ec !! i = Some t3 →
  cell_number t1 = Some q1 → cell_number t2 = Some q2 →
  cell_number t3 = Some q3 →
  (0 ≤ q1)%Qc → (0 ≤ q2)%Qc → (0 ≤ q3)%Qc →
  (Str late_label ∉ slots →
   columns df' !! "LATE_stage" ≫= (.!! i) = Some (Num 0))
  ∧ (Str late_label ∈ slots → (0 < q1 ∨ 0 < q2 ∨ 0 < q3)%Qc →
     columns df' !! "LATE_stage" ≫= (.!! i) = Some (Num q_two))
  ∧ (Str late_label ∈ slots → q1 = 0 ∧ q2 = 0 ∧ q3 = 0 →
     columns df' !! "LATE_stage" ≫= (.!! i) = Some (Num 1)).
Proof.
  intros Hrun Hcs Hdg Hec Hi Hslots Ht1 Ht2 Ht3 N1 N2 N3 P1 P2 P3.
  destruct (late_stage_row _ _ _ _ _ _ _ _ _ _ Hrun Hcs Hdg Hec Hi Hslots
              Ht1 Ht2 Ht3) as (avg & Havg & ->).
  rewrite (mtl_tdp_cell_number _ _ _ _ _ _ N1 N2 N3) in Havg.
  injection Havg as <-.
  pose proof (existsb_eq_str late_label slots) as Hlate.
  pose proof (Qc_sum3_zero q1 q2 q3 P1 P2 P3) as Hzero.
  unfold late_stage_cell, float_truth.
  repeat split.
  - intros Hno. destruct (existsb _ slots); [tauto|reflexivity].
  - intros Hin Hpos. rewrite (proj2 Hlate Hin). cbn [andb].
    rewrite (bool_decide_eq_false_2 (_ = 0)); [reflexivity|].
    intros H. apply Hzero in H as (-> & -> & ->).
    destruct Hpos as [H|[H|H]]; by apply Qclt_not_eq in H.
  - intros Hin H0. rewrite (proj2 Hlate Hin). cbn [andb].
    by rewrite (bool_decide_eq_true_2 (_ = 0)) by (by apply Hzero).
Qed.

Lemma late_stage_of_record_witness :
  columns (add_diagnostic_categories cohort).2 !! "LATE_stage" ≫= (.!! 1%nat)
  = Some (Num q_two).
Proof.
  destruct (late_stage_of_record cohort (add_diagnostic_categories cohort).2
              [Num 0; Num 1; NaN] [Num 0; Num q_half; Num 1]
              [Num 0; Num 0; Num 1] 1 [Str late_label; NaN; NaN; NaN]
              (Num 1) (Num q_half) (Num 0) 1 q_half 0)
    as (_ & H & _);
    [..|apply H; [left|left; by vm_compute]];
    try (vm_compute; reflexivity); try (by vm_compute).
  vm_compute. lia.
Defined.
